(** * IdeaPops: the note store, the date index and the modal flows

    A shallow embedding of the state logic of the IdeaPops single-page
    application ([App.tsx], [components/DailyStack.tsx],
    [components/StickyNote.tsx], [components/CalendarView.tsx],
    [types.ts]) and the properties its specification states about it.

    Conventions of the embedding.
    - A JavaScript string is its sequence of UTF-16 code units.
    - [Date.now()] values, timestamps and the stack cursor are integers
      ([Z]); pixel offsets and the outcomes of [Math.random()] are
      rationals ([Q]).
    - A [Date] object is represented by what its local-time getters return.
    - React state is a record; a handler is a function from the state of
      the render it closes over to the state after its updates.  The
      environment values a handler reads (clock, random source, today's
      date, the local midnights the time zone skipped) are explicit
      arguments.
    - The [localStorage] effects and the markup are outside the model,
      except for the conditions under which a render shows a control. *)

From Stdlib Require Import String Ascii DecimalString DecimalZ.
From Stdlib Require Import ZArith QArith Qround Qabs Bool Lia List.
From Stdlib Require Import Sorting.Sorted Sorting.Permutation.
Import ListNotations.

Local Open Scope Z_scope.

(** ** The pieces of the JavaScript runtime the application calls *)

Module Js.

(** A string value: UTF-16 code units. *)
Definition JsString := list N.

(** Code units of a literal written in the source (ASCII only). *)
Definition str (s : string) : JsString :=
  map N_of_ascii (list_ascii_of_string s).
Arguments str s%_string.

(** [a === b] on strings. *)
Fixpoint eqb (a b : JsString) : bool :=
  match a, b with
  | [], [] => true
  | x :: a', y :: b' => N.eqb x y && eqb a' b'
  | _, _ => false
  end.

(** Truthiness of a string: only the empty string is falsy. *)
Definition truthy (s : JsString) : bool :=
  match s with [] => false | _ :: _ => true end.

(** ECMAScript [WhiteSpace] and [LineTerminator] code points, the
    characters [String.prototype.trim] strips. *)
Definition isWhiteSpace (c : N) : bool :=
  (N.leb 9 c && N.leb c 13          (* TAB, LF, VT, FF, CR *)
   || N.eqb c 32                     (* SP *)
   || N.eqb c 160                    (* NBSP *)
   || N.eqb c 5760                   (* U+1680 *)
   || N.leb 8192 c && N.leb c 8202   (* U+2000 .. U+200A *)
   || N.eqb c 8232 || N.eqb c 8233   (* LS, PS *)
   || N.eqb c 8239                   (* U+202F *)
   || N.eqb c 8287                   (* U+205F *)
   || N.eqb c 12288                  (* U+3000 *)
   || N.eqb c 65279)%bool.           (* U+FEFF *)

Fixpoint trimStart (s : JsString) : JsString :=
  match s with
  | [] => []
  | c :: s' => if isWhiteSpace c then trimStart s' else s
  end.

Definition trimEnd (s : JsString) : JsString :=
  rev (trimStart (rev s)).

Definition trim (s : JsString) : JsString :=
  trimEnd (trimStart s).

(** [String(n)] / [n.toString()] / [`${n}`] for an integer [n] (below
    the magnitude where JavaScript switches to exponent notation). *)
Definition toString (n : Z) : JsString :=
  str (NilZero.string_of_int (Z.to_int n)).

(** [s.padStart(targetLength, padString)]. *)
Definition padStart (targetLength : nat) (padString : JsString)
           (s : JsString) : JsString :=
  let fillLen := (targetLength - length s)%nat in
  firstn fillLen (concat (repeat padString fillLen)) ++ s.

(** [Array.prototype.sort(comparefn)].  The language requires the sort
    to be stable, so for a consistent comparator the result is the one
    stable sorted rearrangement; inserting from the right computes it. *)
Section Sort.
Context {A : Type} (comparefn : A -> A -> Z).

Fixpoint insert (x : A) (l : list A) : list A :=
  match l with
  | [] => [x]
  | y :: l' =>
      if comparefn x y <=? 0 then x :: l else y :: insert x l'
  end.

Definition sort (l : list A) : list A := fold_right insert [] l.
End Sort.

(** [arr[i]] for a numeric index: [None] is [undefined]. *)
Definition get {A : Type} (arr : list A) (i : Z) : option A :=
  if i <? 0 then None else nth_error arr (Z.to_nat i).

(** [Math.floor] of a rational. *)
Definition floor (q : Q) : Z := Qfloor q.

End Js.

Definition JsString : Type := Js.JsString.

(** ** [types.ts] *)

Inductive NoteColor : Type :=
  yellow | pink | blue | green | purple | orange.

Definition NoteColor_eqb (a b : NoteColor) : bool :=
  match a, b with
  | yellow, yellow | pink, pink | blue, blue
  | green, green | purple, purple | orange, orange => true
  | _, _ => false
  end.

Record Note : Type := mkNote {
  id : JsString;
  content : JsString;
  date : JsString;        (* ISO date string YYYY-MM-DD *)
  timestamp : Z;
  color : NoteColor;
  rotation : Q
}.

(** The object spread [{ ...n, content: c }]. *)
Definition withContent (n : Note) (c : JsString) : Note :=
  {| id := id n; content := c; date := date n; timestamp := timestamp n;
     color := color n; rotation := rotation n |}.

(** ** [App.tsx]: dates *)

(** A [Date] seen through its local-time getters.  [getMonth] is
    zero-based; [msOfDay] is the local time of day. *)
Record Date : Type := mkDate {
  getFullYear : Z;
  getMonth : Z;
  getDate : Z;
  msOfDay : Z
}.

Definition toISODateString (d : Date) : JsString :=
  let year := getFullYear d in
  let month := Js.padStart 2 (Js.str "0") (Js.toString (getMonth d + 1)) in
  let day := Js.padStart 2 (Js.str "0") (Js.toString (getDate d)) in
  Js.toString year ++ Js.str "-" ++ month ++ Js.str "-" ++ day.

(** ** [App.tsx]: the date index *)

Definition getNotesForDate (notes : list Note) (d : Date) : list Note :=
  let dateStr := toISODateString d in
  Js.sort (fun a b => timestamp b - timestamp a)
          (filter (fun n => Js.eqb (date n) dateStr) notes).

(** ** [App.tsx]: component state *)

Inductive View : Type := daily | calendar.

Record AppState : Type := mkApp {
  view : View;
  isGridMode : bool;
  currentDate : Date;
  notes : list Note;
  (* modal states *)
  isModalOpen : bool;
  isDrawerOpen : bool;
  isDeleteConfirmOpen : bool;
  (* action state *)
  actionNote : option Note;
  editingNoteId : option JsString;
  (* new note state *)
  newNoteContent : JsString;
  newNoteColor : NoteColor
}.

(** The state of the first render; [now] is the value of [new Date()]. *)
Definition initialState (now : Date) : AppState :=
  {| view := daily; isGridMode := false; currentDate := now; notes := [];
     isModalOpen := false; isDrawerOpen := false;
     isDeleteConfirmOpen := false;
     actionNote := None; editingNoteId := None;
     newNoteContent := []; newNoteColor := yellow |}.

(** The state setters returned by [useState]. *)
Definition setView (v : View) (st : AppState) : AppState :=
  mkApp v (isGridMode st) (currentDate st) (notes st) (isModalOpen st)
        (isDrawerOpen st) (isDeleteConfirmOpen st) (actionNote st)
        (editingNoteId st) (newNoteContent st) (newNoteColor st).

Definition setIsGridMode (b : bool) (st : AppState) : AppState :=
  mkApp (view st) b (currentDate st) (notes st) (isModalOpen st)
        (isDrawerOpen st) (isDeleteConfirmOpen st) (actionNote st)
        (editingNoteId st) (newNoteContent st) (newNoteColor st).

Definition setCurrentDate (d : Date) (st : AppState) : AppState :=
  mkApp (view st) (isGridMode st) d (notes st) (isModalOpen st)
        (isDrawerOpen st) (isDeleteConfirmOpen st) (actionNote st)
        (editingNoteId st) (newNoteContent st) (newNoteColor st).

Definition setNotes (l : list Note) (st : AppState) : AppState :=
  mkApp (view st) (isGridMode st) (currentDate st) l (isModalOpen st)
        (isDrawerOpen st) (isDeleteConfirmOpen st) (actionNote st)
        (editingNoteId st) (newNoteContent st) (newNoteColor st).

Definition setIsModalOpen (b : bool) (st : AppState) : AppState :=
  mkApp (view st) (isGridMode st) (currentDate st) (notes st) b
        (isDrawerOpen st) (isDeleteConfirmOpen st) (actionNote st)
        (editingNoteId st) (newNoteContent st) (newNoteColor st).

Definition setIsDrawerOpen (b : bool) (st : AppState) : AppState :=
  mkApp (view st) (isGridMode st) (currentDate st) (notes st)
        (isModalOpen st) b (isDeleteConfirmOpen st) (actionNote st)
        (editingNoteId st) (newNoteContent st) (newNoteColor st).

Definition setIsDeleteConfirmOpen (b : bool) (st : AppState) : AppState :=
  mkApp (view st) (isGridMode st) (currentDate st) (notes st)
        (isModalOpen st) (isDrawerOpen st) b (actionNote st)
        (editingNoteId st) (newNoteContent st) (newNoteColor st).

Definition setActionNote (a : option Note) (st : AppState) : AppState :=
  mkApp (view st) (isGridMode st) (currentDate st) (notes st)
        (isModalOpen st) (isDrawerOpen st) (isDeleteConfirmOpen st) a
        (editingNoteId st) (newNoteContent st) (newNoteColor st).

Definition setEditingNoteId (e : option JsString) (st : AppState)
  : AppState :=
  mkApp (view st) (isGridMode st) (currentDate st) (notes st)
        (isModalOpen st) (isDrawerOpen st) (isDeleteConfirmOpen st)
        (actionNote st) e (newNoteContent st) (newNoteColor st).

Definition setNewNoteContent (c : JsString) (st : AppState) : AppState :=
  mkApp (view st) (isGridMode st) (currentDate st) (notes st)
        (isModalOpen st) (isDrawerOpen st) (isDeleteConfirmOpen st)
        (actionNote st) (editingNoteId st) c (newNoteColor st).

Definition setNewNoteColor (c : NoteColor) (st : AppState) : AppState :=
  mkApp (view st) (isGridMode st) (currentDate st) (notes st)
        (isModalOpen st) (isDrawerOpen st) (isDeleteConfirmOpen st)
        (actionNote st) (editingNoteId st) (newNoteContent st) c.

(** ** [App.tsx]: the handlers *)

(** The [visibilitychange] listener.  [visible] is
    [document.visibilityState === 'visible'], [today] is [new Date()]. *)
Definition handleVisibilityChange (visible : bool) (today : Date)
           (st : AppState) : AppState :=
  if visible then
    let prevDate := currentDate st in
    let todayString := toISODateString today in
    let prevDateString := toISODateString prevDate in
    if negb (Js.eqb todayString prevDateString)
    then setCurrentDate today st    (* It's a new day, update to today *)
    else setCurrentDate prevDate st (* It's the same day, keep the user's
                                       selected date *)
  else st.

Definition handleDateChange (d : Date) (st : AppState) : AppState :=
  setIsGridMode false (setView daily (setCurrentDate d st)).

(** [getRandomColor], over the palette it draws from.  [random] is the
    outcome of the one [Math.random()] call; [None] is [undefined]. *)
Section Palette.
Variable palette : list NoteColor.

Definition randomPick (arr : list NoteColor) (random : Q)
  : option NoteColor :=
  Js.get arr (Js.floor (random * inject_Z (Z.of_nat (length arr)))).

Definition getRandomColorFrom (random : Q)
           (excludeColor : option NoteColor) : option NoteColor :=
  let availableColors :=
    match excludeColor with
    | Some e => filter (fun c => negb (NoteColor_eqb c e)) palette
    | None => palette
    end in
  if (length availableColors =? 0)%nat
  then randomPick palette random
  else randomPick availableColors random.
End Palette.

Definition COLORS : list NoteColor :=
  [yellow; pink; blue; green; purple; orange].

Definition getRandomColor : Q -> option NoteColor -> option NoteColor :=
  getRandomColorFrom COLORS.

(** [openNewNoteModal].  With the six-entry palette the pick is never
    [undefined] (lemma [getRandomColor_defined]); the [None] branch only
    keeps the function total. *)
Definition openNewNoteModal (random : Q) (st : AppState) : AppState :=
  let currentDayNotes := getNotesForDate (notes st) (currentDate st) in
  let lastNoteColor :=
    match currentDayNotes with
    | n :: _ => Some (color n)
    | [] => None
    end in
  let st1 := setNewNoteContent [] st in
  let st2 :=
    match getRandomColor random lastNoteColor with
    | Some c => setNewNoteColor c st1
    | None => st1
    end in
  setIsModalOpen true (setEditingNoteId None st2).

(** [handleSaveNote].  [now1] and [now2] are the two [Date.now()] reads
    (for [id] and for [timestamp]), [random] the [Math.random()] outcome
    used for the rotation. *)
Definition handleSaveNote (now1 now2 : Z) (random : Q) (st : AppState)
  : AppState :=
  if negb (Js.truthy (Js.trim (newNoteContent st))) then st
  else
    let create :=
      let newNote :=
        {| id := Js.toString now1;
           content := newNoteContent st;
           date := toISODateString (currentDate st);
           timestamp := now2;
           color := newNoteColor st;
           rotation := (random * 6 - 3)%Q |} in
      setNotes (newNote :: notes st) st in
    let st1 :=
      match editingNoteId st with
      | Some editingId =>
          if Js.truthy editingId then
            (* update existing note *)
            setNotes
              (map (fun n => if Js.eqb (id n) editingId
                             then withContent n (newNoteContent st)
                             else n)
                   (notes st)) st
          else create
      | None => create
      end in
    setIsModalOpen false (setEditingNoteId None (setNewNoteContent [] st1)).

Definition handleLongPressNote (note : Note) (st : AppState) : AppState :=
  setIsDrawerOpen true (setActionNote (Some note) st).

Definition handleEditAction (st : AppState) : AppState :=
  match actionNote st with
  | Some a =>
      setIsModalOpen true
        (setIsDrawerOpen false
           (setEditingNoteId (Some (id a))
              (setNewNoteColor (color a)
                 (setNewNoteContent (content a) st))))
  | None => st
  end.

Definition handleDeleteAction (st : AppState) : AppState :=
  setIsDeleteConfirmOpen true (setIsDrawerOpen false st).

Definition confirmDelete (st : AppState) : AppState :=
  let st1 :=
    match actionNote st with
    | Some a =>
        setNotes (filter (fun n => negb (Js.eqb (id n) (id a))) (notes st))
                 st
    | None => st
    end in
  setActionNote None (setIsDeleteConfirmOpen false st1).

Definition toggleGridMode (st : AppState) : AppState :=
  setIsGridMode (negb (isGridMode st)) st.

Definition handleViewSwitch (newView : View) (st : AppState) : AppState :=
  let st1 := setView newView st in
  match newView with
  | calendar => setIsGridMode false st1
  | daily => st1
  end.

(** [currentNotes], computed at every render. *)
Definition currentNotes (st : AppState) : list Note :=
  getNotesForDate (notes st) (currentDate st).

(** ** [App.tsx]: user intents

    One constructor per event handler wired in the markup.  The arguments
    are the values the handler reads from the environment. *)

Inductive Event : Type :=
| VisibilityChange (visible : bool) (today : Date)
| ClickDailyTab
| ClickCalendarTab
| ClickGridToggle
| SelectDay (d : Date)                         (* CalendarView onDateChange *)
| ClickNewNote (random : Q)                    (* floating action button *)
| TypeContent (value : JsString)               (* textarea onChange *)
| ClickSave (now1 now2 : Z) (random : Q)
| DismissModal                                 (* backdrop or X button *)
| LongPress (note : Note)                      (* onLongPress / grid click *)
| ClickEdit
| ClickDelete
| DismissDrawer                                (* drawer backdrop *)
| ClickKeep
| DismissConfirm                               (* confirmation backdrop *)
| ClickDiscard.

Definition step (ev : Event) (st : AppState) : AppState :=
  match ev with
  | VisibilityChange visible today => handleVisibilityChange visible today st
  | ClickDailyTab => handleViewSwitch daily st
  | ClickCalendarTab => handleViewSwitch calendar st
  | ClickGridToggle => toggleGridMode st
  | SelectDay d => handleDateChange d st
  | ClickNewNote random => openNewNoteModal random st
  | TypeContent value => setNewNoteContent value st
  | ClickSave now1 now2 random => handleSaveNote now1 now2 random st
  | DismissModal => setIsModalOpen false st
  | LongPress note => handleLongPressNote note st
  | ClickEdit => handleEditAction st
  | ClickDelete => handleDeleteAction st
  | DismissDrawer => setIsDrawerOpen false st
  | ClickKeep => setIsDeleteConfirmOpen false st
  | DismissConfirm => setIsDeleteConfirmOpen false st
  | ClickDiscard => confirmDelete st
  end.

(** Events are processed one at a time, oldest first. *)
Definition run (evs : list Event) (st : AppState) : AppState :=
  fold_left (fun s ev => step ev s) evs st.

(** Two note values with the same fields. *)
Definition Note_eqb (a b : Note) : bool :=
  Js.eqb (id a) (id b) && Js.eqb (content a) (content b)
  && Js.eqb (date a) (date b) && (timestamp a =? timestamp b)
  && NoteColor_eqb (color a) (color b)
  && (Qnum (rotation a) =? Qnum (rotation b))
  && Pos.eqb (Qden (rotation a)) (Qden (rotation b)).

(** Whether the render of [st] contains the control behind [ev] (the
    conditions guarding each element in the JSX).  Elements inside
    [AnimatePresence] also stay mounted, with the handlers of their last
    render, while they animate out; such late clicks are not described
    here.  So [offered st ev = true] says that the render of [st] shows
    the control, enabled; [offered st ev = false] says that this render
    does not, not that no such click can arrive.  [feasible] below only
    serves to show that a trace can happen. *)
Definition offered (st : AppState) (ev : Event) : bool :=
  match ev with
  | VisibilityChange _ _ | ClickDailyTab | ClickCalendarTab => true
  | ClickGridToggle =>
      match view st, currentNotes st with
      | daily, _ :: _ => true
      | _, _ => false
      end
  | SelectDay _ => match view st with calendar => true | daily => false end
  | ClickNewNote _ => match view st with daily => true | calendar => false end
  | TypeContent _ | DismissModal => isModalOpen st
  | ClickSave _ _ _ =>
      isModalOpen st && Js.truthy (Js.trim (newNoteContent st))
  | LongPress note =>
      (* a displayed note of the current day: any of them in grid mode,
         the active card in stack mode *)
      match view st with
      | daily => existsb (Note_eqb note) (currentNotes st)
      | calendar => false
      end
  | ClickEdit | ClickDelete | DismissDrawer => isDrawerOpen st
  | ClickKeep | DismissConfirm | ClickDiscard => isDeleteConfirmOpen st
  end.

(** A trace every event of which is on a control of the render it
    meets. *)
Fixpoint feasible (evs : list Event) (st : AppState) : bool :=
  match evs with
  | [] => true
  | ev :: evs' => offered st ev && feasible evs' (step ev st)
  end.

(** ** [components/DailyStack.tsx] *)

Module DailyStack.

(** [currentIndex], [direction] and the pending long-press timer: the
    note its callback captured, [None] when no timer is armed. *)
Record State : Type := mkState {
  currentIndex : Z;
  direction : Z;
  longPressTimer : option Note
}.

Definition initial : State :=
  {| currentIndex := 0; direction := 0; longPressTimer := None |}.

Definition swipeThreshold : Q := 100.

Definition handleDragEnd (offset_x : Q) (st : State) : State :=
  if negb (Qle_bool (Qabs offset_x) swipeThreshold) then
    {| currentIndex := currentIndex st + 1;
       direction := if negb (Qle_bool offset_x 0) then 1 else -1;
       longPressTimer := longPressTimer st |}
  else st.

(** Circular index logic; [%] is the truncating remainder. *)
Definition activeIndex (notes : list Note) (st : State) : Z :=
  Z.rem (currentIndex st) (Z.of_nat (length notes)).

Definition nextIndex (notes : list Note) (st : State) : Z :=
  Z.rem (currentIndex st + 1) (Z.of_nat (length notes)).

Definition activeNote (notes : list Note) (st : State) : option Note :=
  Js.get notes (activeIndex notes st).

Definition nextNote (notes : list Note) (st : State) : option Note :=
  Js.get notes (nextIndex notes st).

(** What a render produces: the empty-state placeholder, which carries
    no handler, or the cards.  [background] tells whether the
    next-in-loop card is drawn ([notes.length > 1]). *)
Inductive Rendered : Type :=
| Placeholder
| Cards (active : Note) (next : option Note) (background : bool).

(** [None]: the render throws (a property of [undefined] is read). *)
Definition render (notes : list Note) (st : State) : option Rendered :=
  if (length notes =? 0)%nat then Some Placeholder
  else
    match activeNote notes st with
    | None => None
    | Some a =>
        let background := (1 <? length notes)%nat in
        match nextNote notes st, background with
        | None, true => None
        | next, _ => Some (Cards a next background)
        end
    end.

Definition handlePointerDown (active : Note) (st : State) : State :=
  {| currentIndex := currentIndex st; direction := direction st;
     longPressTimer := Some active |}.

Definition cancelLongPress (st : State) : State :=
  {| currentIndex := currentIndex st; direction := direction st;
     longPressTimer := None |}.

(** Pointer input on the component. *)
Inductive Gesture : Type :=
| PointerDown
| PointerUp
| PointerLeave
| DragStart
| DragEnd (offset_x : Q).

(** A gesture reaches a handler only through the foreground card; the
    placeholder has none. *)
Definition dispatch (notes : list Note) (g : Gesture) (st : State)
  : State :=
  match render notes st with
  | Some (Cards active _ _) =>
      match g with
      | PointerDown => handlePointerDown active st
      | PointerUp | PointerLeave | DragStart => cancelLongPress st
      | DragEnd offset_x => handleDragEnd offset_x st
      end
  | _ => st
  end.

(** The 500 ms timer elapsing: the armed callback, if any, calls
    [onLongPress] with the note it captured (second component). *)
Definition timerElapsed (st : State) : State * option Note :=
  (cancelLongPress st, longPressTimer st).

Definition swipes (notes : list Note) (xs : list Q) (st : State) : State :=
  fold_left (fun s x => dispatch notes (DragEnd x) s) xs st.

End DailyStack.

(** ** Vocabulary of the properties *)

(** What a save that passes the guard does to the store. *)
Definition createdNote (now1 now2 : Z) (random : Q) (st : AppState) : Note :=
  {| id := Js.toString now1; content := newNoteContent st;
     date := toISODateString (currentDate st); timestamp := now2;
     color := newNoteColor st; rotation := (random * 6 - 3)%Q |}.

Definition editedNotes (editingId : JsString) (st : AppState) : list Note :=
  map (fun n => if Js.eqb (id n) editingId
                then withContent n (newNoteContent st) else n)
      (notes st).

Definition savedNotes (now1 now2 : Z) (random : Q) (st : AppState)
  : list Note :=
  match editingNoteId st with
  | Some editingId =>
      if Js.truthy editingId then editedNotes editingId st
      else createdNote now1 now2 random st :: notes st
  | None => createdNote now1 now2 random st :: notes st
  end.

(** Every stored note has content that is not blank. *)
Definition contentNonBlank (l : list Note) : Prop :=
  Forall (fun n => Js.trim (content n) <> []) l.

(** The ids of the stored notes are pairwise distinct. *)
Definition uniqueIds (l : list Note) : Prop := NoDup (map id l).

(** Calendar order of two dates. *)
Definition dayBefore (a b : Date) : Prop :=
  getFullYear a < getFullYear b \/
  (getFullYear a = getFullYear b /\
   (getMonth a < getMonth b \/
    (getMonth a = getMonth b /\ getDate a < getDate b))).

Definition sameDay (a b : Date) : Prop :=
  getFullYear a = getFullYear b /\ getMonth a = getMonth b /\
  getDate a = getDate b.

(** The action flow is idle: neither the drawer nor the confirmation is
    open. *)
Definition actionIdle (st : AppState) : Prop :=
  isDrawerOpen st = false /\ isDeleteConfirmOpen st = false.

(** The editor flow is closed, with buffer and edit target cleared. *)
Definition editorClosed (st : AppState) : Prop :=
  isModalOpen st = false /\ newNoteContent st = [] /\
  editingNoteId st = None.

(** Sample values used in the examples. *)
Definition march (day : Z) : Date := mkDate 2024 2 day 0.

Definition startOfMarch : AppState := initialState (march 1).

(** Two notes created while the clock reads the same millisecond. *)
Definition twoSameInstant : list Event :=
  [ClickNewNote 0; TypeContent (Js.str "a"); ClickSave 5 5 0;
   ClickNewNote 0; TypeContent (Js.str "b"); ClickSave 5 5 0].

Definition collidingStore : AppState := run twoSameInstant startOfMarch.

(** One note on the wall, and that note. *)
Definition oneNote : list Event :=
  [ClickNewNote 0; TypeContent (Js.str "a"); ClickSave 5 5 0].

Definition noteA : Note :=
  mkNote (Js.str "5") (Js.str "a") (Js.str "2024-03-01") 5 yellow (-3 # 1).

Definition wallWithOneNote : AppState := run oneNote startOfMarch.

(** Dates whose month and day-of-month are in the ranges the getters
    produce. *)
Definition validDay (d : Date) : Prop :=
  0 <= getMonth d <= 11 /\ 1 <= getDate d <= 31.

(** Reading back a two-character decimal field. *)
Definition decode2 (s : JsString) : Z :=
  match s with
  | [a; b] => (Z.of_N a - 48) * 10 + (Z.of_N b - 48)
  | _ => -1
  end.

Definition twoDigits (v : Z) : JsString :=
  Js.padStart 2 (Js.str "0") (Js.toString v).

(** A store with two notes of equal timestamp and one of another day. *)
Definition noteAt (i : string) (day : string) (ts : Z) (c : NoteColor)
  : Note :=
  mkNote (Js.str i) (Js.str "idea") (Js.str day) ts c 0.

Definition mixedStore : list Note :=
  [noteAt "1" "2024-03-01" 5 yellow; noteAt "2" "2024-03-01" 7 pink;
   noteAt "3" "2024-03-02" 9 blue; noteAt "4" "2024-03-01" 7 green].

(** ** [App.tsx] and [components/StickyNote.tsx]: font size of a note *)

Definition getNoteInputFontSizeClass (content : JsString) : JsString :=
  let length := Z.of_nat (length content) in
  if length <? 30 then Js.str "text-xl"
  else if length <? 80 then Js.str "text-lg"
  else if length <? 150 then Js.str "text-base"
  else Js.str "text-sm".

Module StickyNote.

Definition getFontSizeClass (content : JsString) : JsString :=
  let length := Z.of_nat (length content) in
  if length <? 30 then Js.str "text-xl"
  else if length <? 80 then Js.str "text-lg"
  else if length <? 150 then Js.str "text-base"
  else Js.str "text-sm".

(** The font size class of the rendered note. *)
Definition fontSizeClass (note : Note) : JsString :=
  getFontSizeClass (content note).

End StickyNote.

(** ** More vocabulary *)

(** The fields of a note other than its content. *)
Definition skeleton (n : Note) : JsString * JsString * Z * NoteColor * Q :=
  (id n, date n, timestamp n, color n, rotation n).

(** The store lists the notes from the latest timestamp to the earliest. *)
Definition descendingStore (l : list Note) : Prop :=
  StronglySorted (fun a b => timestamp b <= timestamp a) l.

(** Along the trace, every save reads a timestamp that is not behind any
    stored one. *)
Fixpoint clockNeverBehind (evs : list Event) (st : AppState) : Prop :=
  match evs with
  | [] => True
  | ev :: evs' =>
      match ev with
      | ClickSave _ now2 _ =>
          forall n, In n (notes st) -> timestamp n <= now2
      | _ => True
      end /\ clockNeverBehind evs' (step ev st)
  end.

(** Along the trace, every save reads a clock value whose decimal string
    is not the id of a stored note. *)
Fixpoint clockAlwaysFresh (evs : list Event) (st : AppState) : Prop :=
  match evs with
  | [] => True
  | ev :: evs' =>
      match ev with
      | ClickSave now1 _ _ =>
          forall n, In n (notes st) -> id n <> Js.toString now1
      | _ => True
      end /\ clockAlwaysFresh evs' (step ev st)
  end.

(** ** The [Date] constructor and getters used by the calendar

    Day numbers, years, months and week days as the language defines
    them (Day Number and Time within Day, Year Number, Month Number,
    Date Number, Week Day, MakeDay), in local time and for time values
    inside the range of [Date].  The time zone enters through the local
    midnights it skipped. *)

Module JsDate.

Definition DaysInYear (y : Z) : Z :=
  if negb (y mod 4 =? 0) then 365
  else if negb (y mod 100 =? 0) then 366
  else if negb (y mod 400 =? 0) then 365
  else 366.

Definition DayFromYear (y : Z) : Z :=
  365 * (y - 1970) + (y - 1969) / 4 - (y - 1901) / 100 + (y - 1601) / 400.

(** The largest [y] with [DayFromYear y <= day]. *)
Definition YearFromDay (day : Z) : Z :=
  let e := 1970 + (400 * day) / 146097 in
  if DayFromYear (e + 1) <=? day then e + 1
  else if DayFromYear e <=? day then e
  else e - 1.

Definition InLeapYear (day : Z) : Z :=
  if DaysInYear (YearFromDay day) =? 366 then 1 else 0.

Definition DayWithinYear (day : Z) : Z :=
  day - DayFromYear (YearFromDay day).

(** Day within the year on which month [m] starts; [leap] is 0 or 1. *)
Definition monthStart (m leap : Z) : Z :=
  match m with
  | 0 => 0
  | 1 => 31
  | 2 => 59 + leap
  | 3 => 90 + leap
  | 4 => 120 + leap
  | 5 => 151 + leap
  | 6 => 181 + leap
  | 7 => 212 + leap
  | 8 => 243 + leap
  | 9 => 273 + leap
  | 10 => 304 + leap
  | _ => 334 + leap
  end.

Definition MonthFromDay (day : Z) : Z :=
  let d := DayWithinYear day in
  let leap := InLeapYear day in
  if d <? 31 then 0
  else if d <? 59 + leap then 1
  else if d <? 90 + leap then 2
  else if d <? 120 + leap then 3
  else if d <? 151 + leap then 4
  else if d <? 181 + leap then 5
  else if d <? 212 + leap then 6
  else if d <? 243 + leap then 7
  else if d <? 273 + leap then 8
  else if d <? 304 + leap then 9
  else if d <? 334 + leap then 10
  else 11.

Definition DateFromDay (day : Z) : Z :=
  DayWithinYear day - monthStart (MonthFromDay day) (InLeapYear day) + 1.

Definition WeekDay (day : Z) : Z := (day + 4) mod 7.

(** [MakeDay(year, month, date)]: the day number of the first of the
    month [month mod 12] of the year [year + floor(month / 12)], moved
    by [date - 1] days. *)
Definition MakeDay (year month date : Z) : Z :=
  let ym := year + month / 12 in
  let mn := month mod 12 in
  DayFromYear ym
  + monthStart mn (if DaysInYear ym =? 366 then 1 else 0)
  + date - 1.

(** The date object for local midnight of a day number. *)
Definition ofDay (day : Z) : Date :=
  mkDate (YearFromDay day) (MonthFromDay day) (DateFromDay day) 0.

Definition msPerDay : Z := 86400000.

(** The date object whose local time value is [t] milliseconds. *)
Definition ofLocalTime (t : Z) : Date :=
  let day := t / msPerDay in
  mkDate (YearFromDay day) (MonthFromDay day) (DateFromDay day)
         (t mod msPerDay).

(** [new Date(year, month, date)]; a year from 0 to 99 means 1900 +
    year.  The requested local time is midnight of the day number
    [MakeDay yr month date].  Where the time zone skipped that local
    time it is read with the offset before the transition, so the date
    object lands later by the length of the gap: [midnightGap day] is
    that length in milliseconds, 0 where the midnight exists. *)
Definition newDate (midnightGap : Z -> Z) (year month date : Z) : Date :=
  let yr := if (0 <=? year) && (year <=? 99) then 1900 + year else year in
  let day := MakeDay yr month date in
  ofLocalTime (day * msPerDay + midnightGap day).

(** The local day number of a date object, and [getDay()]. *)
Definition dayOf (d : Date) : Z :=
  MakeDay (getFullYear d) (getMonth d) (getDate d).

Definition getDay (d : Date) : Z := WeekDay (dayOf d).

End JsDate.

(** ** [components/CalendarView.tsx] *)

Module CalendarView.

(** The component state is [viewDate]; its first value is
    [new Date(currentDate)], a copy of the selected date. *)
Definition initialViewDate (currentDate : Date) : Date := currentDate.

(** The time zone of the browser, as [JsDate.newDate] needs it. *)
Section TimeZone.
Variable midnightGap : Z -> Z.

Definition getDaysInMonth (year month : Z) : Z :=
  getDate (JsDate.newDate midnightGap year (month + 1) 0).

Definition getFirstDayOfMonth (year month : Z) : Z :=
  JsDate.getDay (JsDate.newDate midnightGap year month 1).

Definition prevMonth (viewDate : Date) : Date :=
  JsDate.newDate midnightGap (getFullYear viewDate) (getMonth viewDate - 1) 1.

Definition nextMonth (viewDate : Date) : Date :=
  JsDate.newDate midnightGap (getFullYear viewDate) (getMonth viewDate + 1) 1.

Definition getNotesForDay (viewDate : Date) (notes : list Note) (day : Z)
  : list Note :=
  let year := getFullYear viewDate in
  let month := getMonth viewDate in
  let dateStr :=
    Js.toString year ++ Js.str "-"
    ++ Js.padStart 2 (Js.str "0") (Js.toString (month + 1)) ++ Js.str "-"
    ++ Js.padStart 2 (Js.str "0") (Js.toString day) in
  filter (fun n => Js.eqb (date n) dateStr) notes.

Definition isToday (viewDate today : Date) (day : Z) : bool :=
  (day =? getDate today) && (getMonth viewDate =? getMonth today)
  && (getFullYear viewDate =? getFullYear today).

Definition isSelected (viewDate currentDate : Date) (day : Z) : bool :=
  (day =? getDate currentDate) && (getMonth viewDate =? getMonth currentDate)
  && (getFullYear viewDate =? getFullYear currentDate).

(** A cell of the month grid: a blank slot before the first of the
    month, or the button of a day with its color dots (at most three),
    the overflow dot, the two highlights and the date its click hands to
    [onDateChange]. *)
Inductive Cell : Type :=
| Blank (i : Z)
| DayButton (day : Z) (dots : list NoteColor) (overflow : bool)
            (selected : bool) (todayRing : bool) (onClick : Date).

(** The integers [lo], [lo + 1], ... below [hi]: the values a counting
    [for] loop runs through. *)
Definition countFrom (lo hi : Z) : list Z :=
  map (fun k => lo + Z.of_nat k) (seq 0 (Z.to_nat (hi - lo))).

Definition dayButton (viewDate currentDate today : Date) (notes : list Note)
           (day : Z) : Cell :=
  let dayNotes := getNotesForDay viewDate notes day in
  let hasNotes := (0 <? length dayNotes)%nat in
  let selected := isSelected viewDate currentDate day in
  DayButton day
            (if hasNotes then map color (firstn 3 dayNotes) else [])
            (hasNotes && (3 <? length dayNotes)%nat)
            selected
            (isToday viewDate today day && negb selected)
            (JsDate.newDate midnightGap (getFullYear viewDate)
                            (getMonth viewDate) day).

Definition grid (viewDate currentDate today : Date) (notes : list Note)
  : list Cell :=
  let year := getFullYear viewDate in
  let month := getMonth viewDate in
  let daysInMonth := getDaysInMonth year month in
  let startDay := getFirstDayOfMonth year month in
  map Blank (countFrom 0 startDay)
  ++ map (dayButton viewDate currentDate today notes)
         (countFrom 1 (daysInMonth + 1)).

End TimeZone.

End CalendarView.

(** Length of month [m] (zero-based) of year [y] in the civil calendar. *)
Definition civilMonthLength (y m : Z) : Z :=
  match m with
  | 1 => if JsDate.DaysInYear y =? 366 then 29 else 28
  | 3 | 5 | 8 | 10 => 30
  | _ => 31
  end.

(** Years the calendar can show without meeting the two-digit-year rule
    or the end of the range of [Date]. *)
Definition plainYear (y : Z) : Prop := 100 <= y <= 275000.

(** A time zone that never skipped a whole calendar day: a skipped
    local midnight is pushed forward by less than a day. *)
Definition noSkippedDay (midnightGap : Z -> Z) : Prop :=
  forall day, 0 <= midnightGap day < JsDate.msPerDay.

(** A time zone in which every local midnight exists. *)
Definition everyMidnight : Z -> Z := fun _ => 0.

(** A time zone that skipped the local day with day number [skipped]
    altogether, as Pacific/Apia did with 30 December 2011. *)
Definition skippingDay (skipped : Z) : Z -> Z :=
  fun day => if day =? skipped then JsDate.msPerDay else 0.

(** The date object shows the first of month [m] of year [y]. *)
Definition firstOfMonth (d : Date) (y m : Z) : Prop :=
  getFullYear d = y /\ getMonth d = m /\ getDate d = 1.

(** Whether a year is a leap year, as 0 or 1. *)
Definition leapOf (y : Z) : Z := if JsDate.DaysInYear y =? 366 then 1 else 0.

(** A date object whose fields name a day of the civil calendar. *)
Definition civilDate (d : Date) : Prop :=
  0 <= getMonth d <= 11 /\
  1 <= getDate d <= civilMonthLength (getFullYear d) (getMonth d).

Definition cellDay (c : CalendarView.Cell) : option Z :=
  match c with
  | CalendarView.Blank _ => None
  | CalendarView.DayButton day _ _ _ _ _ => Some day
  end.

Definition cellSelected (c : CalendarView.Cell) : bool :=
  match c with
  | CalendarView.Blank _ => false
  | CalendarView.DayButton _ _ _ selected _ _ => selected
  end.

(** ** [components/DailyStack.tsx]: the long-press timers, one by one

    [setTimeout] hands out a fresh positive id per call; a timer stays
    pending until it elapses or is cleared; the ref holds the id stored
    by the last pointer-down, until a cancel resets it. *)

Module LongPress.

Record State : Type := mkState {
  currentIndex : Z;
  direction : Z;
  timers : list (positive * Note);        (* pending callbacks *)
  longPressTimerRef : option positive;
  nextTimer : positive                    (* next id of [setTimeout] *)
}.

Definition initial : State :=
  {| currentIndex := 0; direction := 0; timers := [];
     longPressTimerRef := None; nextTimer := 1%positive |}.

(** The render only depends on the cursor. *)
Definition render (notes : list Note) (st : State)
  : option DailyStack.Rendered :=
  DailyStack.render notes
    (DailyStack.mkState (currentIndex st) (direction st) None).

Definition clearTimeout (i : positive) (l : list (positive * Note))
  : list (positive * Note) :=
  filter (fun t => negb (Pos.eqb (fst t) i)) l.

Definition handlePointerDown (activeNote : Note) (st : State) : State :=
  {| currentIndex := currentIndex st; direction := direction st;
     timers := (nextTimer st, activeNote) :: timers st;
     longPressTimerRef := Some (nextTimer st);
     nextTimer := Pos.succ (nextTimer st) |}.

Definition cancelLongPress (st : State) : State :=
  match longPressTimerRef st with
  | Some i =>
      {| currentIndex := currentIndex st; direction := direction st;
         timers := clearTimeout i (timers st);
         longPressTimerRef := None;
         nextTimer := nextTimer st |}
  | None => st
  end.

Definition handleDragEnd (offset_x : Q) (st : State) : State :=
  if negb (Qle_bool (Qabs offset_x) DailyStack.swipeThreshold) then
    {| currentIndex := currentIndex st + 1;
       direction := if negb (Qle_bool offset_x 0) then 1 else -1;
       timers := timers st;
       longPressTimerRef := longPressTimerRef st;
       nextTimer := nextTimer st |}
  else st.

Definition dispatch (notes : list Note) (g : DailyStack.Gesture) (st : State)
  : State :=
  match render notes st with
  | Some (DailyStack.Cards active _ _) =>
      match g with
      | DailyStack.PointerDown => handlePointerDown active st
      | DailyStack.PointerUp | DailyStack.PointerLeave
      | DailyStack.DragStart => cancelLongPress st
      | DailyStack.DragEnd offset_x => handleDragEnd offset_x st
      end
  | _ => st
  end.

(** Timer [i] elapses: if it is still pending, its callback runs and
    calls [onLongPress] with the note it captured (second component). *)
Definition elapse (i : positive) (st : State) : State * option Note :=
  match find (fun t => Pos.eqb (fst t) i) (timers st) with
  | Some (_, note) =>
      ({| currentIndex := currentIndex st; direction := direction st;
          timers := clearTimeout i (timers st);
          longPressTimerRef := longPressTimerRef st;
          nextTimer := nextTimer st |},
       Some note)
  | None => (st, None)
  end.

Definition gestures (notes : list Note) (gs : list DailyStack.Gesture)
           (st : State) : State :=
  fold_left (fun s g => dispatch notes g s) gs st.

End LongPress.

(** The gestures that call [cancelLongPress]. *)
Definition cancels (g : DailyStack.Gesture) : Prop :=
  g = DailyStack.PointerUp \/ g = DailyStack.PointerLeave \/
  g = DailyStack.DragStart.

(** * Properties *)

(** ** Facts about the runtime model *)

Lemma eqb_eq (a b : JsString) : Js.eqb a b = true <-> a = b.
Proof.
  revert b; induction a as [|x a IH]; intros [|y b]; simpl;
    try (split; [discriminate | discriminate]); try tauto.
  rewrite andb_true_iff, N.eqb_eq, IH.
  split; [intros [-> ->]; reflexivity | intros [= -> ->]; auto].
Qed.

Lemma eqb_refl (a : JsString) : Js.eqb a a = true.
Proof. apply eqb_eq; reflexivity. Qed.

Lemma eqb_neq (a b : JsString) : Js.eqb a b = false <-> a <> b.
Proof.
  rewrite <- eqb_eq. destruct (Js.eqb a b); split; congruence.
Qed.

Lemma NoteColor_eqb_eq (a b : NoteColor) : NoteColor_eqb a b = true <-> a = b.
Proof. destruct a, b; simpl; split; congruence. Qed.

Lemma truthy_false (s : JsString) : Js.truthy s = false <-> s = [].
Proof. destruct s; simpl; split; congruence. Qed.

Lemma truthy_true (s : JsString) : Js.truthy s = true <-> s <> [].
Proof. destruct s; simpl; split; congruence. Qed.

(** *** The sort, for a comparator of the form [key b - key a] *)

Section SortByKeyDescending.
Context {A : Type} (key : A -> Z).

Let comparefn (a b : A) : Z := key b - key a.
Let descending (a b : A) : Prop := key b <= key a.
Let keyIs (t : Z) (a : A) : bool := key a =? t.

Lemma insert_perm (x : A) (l : list A) :
  Permutation (x :: l) (Js.insert comparefn x l).
Proof.
  induction l as [|y l IH]; simpl; [reflexivity|].
  destruct (comparefn x y <=? 0); [reflexivity|].
  rewrite perm_swap. constructor. exact IH.
Qed.

Lemma sort_perm (l : list A) : Permutation l (Js.sort comparefn l).
Proof.
  induction l as [|x l IH]; simpl; [constructor|].
  rewrite <- insert_perm. constructor. exact IH.
Qed.

Lemma insert_sorted (x : A) (l : list A) :
  StronglySorted descending l ->
  StronglySorted descending (Js.insert comparefn x l).
Proof.
  induction 1 as [|y l Hl IH Hy]; simpl.
  - repeat constructor.
  - destruct (Z.leb_spec (comparefn x y) 0) as [Hle|Hgt];
      unfold comparefn, descending in *.
    + constructor; [constructor; assumption|].
      constructor; [lia|].
      rewrite Forall_forall in *. intros z Hz.
      specialize (Hy z Hz). lia.
    + constructor; [exact IH|].
      rewrite Forall_forall in *. intros z Hz.
      apply (Permutation_in _ (Permutation_sym (insert_perm x l))) in Hz.
      destruct Hz as [<-|Hz]; [lia | auto].
Qed.

Lemma sort_sorted (l : list A) :
  StronglySorted descending (Js.sort comparefn l).
Proof.
  induction l as [|x l IH]; simpl; [constructor|].
  apply insert_sorted, IH.
Qed.

(** Inserting [x] puts it in front of every element with its key. *)
Lemma filter_insert (t : Z) (x : A) (l : list A) :
  filter (keyIs t) (Js.insert comparefn x l) = filter (keyIs t) (x :: l).
Proof.
  induction l as [|y l IH]; [reflexivity|].
  cbn [Js.insert].
  destruct (Z.leb_spec (comparefn x y) 0) as [Hle|Hgt]; [reflexivity|].
  cbn [filter] in *. rewrite IH.
  unfold comparefn, keyIs in *.
  destruct (Z.eqb_spec (key x) t), (Z.eqb_spec (key y) t);
    try reflexivity; lia.
Qed.

(** Stability: elements with equal keys keep their relative order. *)
Lemma sort_stable (t : Z) (l : list A) :
  filter (keyIs t) (Js.sort comparefn l) = filter (keyIs t) l.
Proof.
  induction l as [|x l IH]; [reflexivity|].
  cbn [Js.sort fold_right]. rewrite filter_insert.
  cbn [filter]. fold (Js.sort comparefn l). rewrite IH. reflexivity.
Qed.

(** Sortedness and stability determine the result: this is why any
    conforming engine returns what [Js.sort] computes. *)
Lemma sorted_stable_unique (l1 l2 : list A) :
  StronglySorted descending l1 ->
  StronglySorted descending l2 ->
  (forall t, filter (keyIs t) l1 = filter (keyIs t) l2) ->
  l1 = l2.
Proof.
  intros H1; revert l2.
  induction H1 as [|a l1 Hs1 IH Ha]; intros l2 H2 Hf.
  - destruct l2 as [|b l2]; [reflexivity|].
    specialize (Hf (key b)). unfold keyIs in Hf. cbn in Hf.
    rewrite Z.eqb_refl in Hf. discriminate.
  - destruct H2 as [|b l2 Hs2 Hb].
    + specialize (Hf (key a)). unfold keyIs in Hf. cbn in Hf.
      rewrite Z.eqb_refl in Hf. discriminate.
    + assert (Hab : key a <= key b).
      { assert (Hin : In a (filter (keyIs (key a)) (a :: l1))).
        { apply filter_In. split; [left; reflexivity|].
          unfold keyIs. apply Z.eqb_refl. }
        rewrite Hf in Hin. apply filter_In in Hin.
        destruct Hin as [[<-|Hin] _]; [lia|].
        rewrite Forall_forall in Hb. apply Hb, Hin. }
      assert (Hba : key b <= key a).
      { assert (Hin : In b (filter (keyIs (key b)) (b :: l2))).
        { apply filter_In. split; [left; reflexivity|].
          unfold keyIs. apply Z.eqb_refl. }
        rewrite <- Hf in Hin. apply filter_In in Hin.
        destruct Hin as [[<-|Hin] _]; [lia|].
        rewrite Forall_forall in Ha. apply Ha, Hin. }
      assert (Hk : key a = key b) by lia.
      pose proof (Hf (key a)) as E. cbn [filter] in E.
      replace (keyIs (key a) a) with true in E
        by (symmetry; apply Z.eqb_refl).
      replace (keyIs (key a) b) with true in E
        by (symmetry; apply Z.eqb_eq; lia).
      injection E as -> E.
      f_equal. apply IH; [exact Hs2|].
      intros t. specialize (Hf t). cbn [filter] in Hf.
      destruct (keyIs t b); [injection Hf; auto | exact Hf].
Qed.

End SortByKeyDescending.

(** ** The date index *)

Section DateIndex.
Variables (store : list Note) (d : Date).

Let selected : list Note :=
  filter (fun n => Js.eqb (date n) (toISODateString d)) store.

Lemma getNotesForDate_perm : Permutation selected (getNotesForDate store d).
Proof. apply sort_perm. Qed.

Lemma getNotesForDate_In (n : Note) :
  In n (getNotesForDate store d)
  <-> In n store /\ date n = toISODateString d.
Proof.
  split.
  - intros Hin.
    apply (Permutation_in _ (Permutation_sym getNotesForDate_perm)) in Hin.
    apply filter_In in Hin. rewrite eqb_eq in Hin. exact Hin.
  - intros [Hin Hd]. apply (Permutation_in _ getNotesForDate_perm).
    apply filter_In. split; [exact Hin | apply eqb_eq, Hd].
Qed.

Lemma getNotesForDate_sorted :
  StronglySorted (fun a b => timestamp b <= timestamp a)
                 (getNotesForDate store d).
Proof. apply sort_sorted. Qed.

Lemma getNotesForDate_stable (t : Z) :
  filter (fun n => timestamp n =? t) (getNotesForDate store d)
  = filter (fun n => timestamp n =? t) selected.
Proof. apply sort_stable. Qed.

Lemma getNotesForDate_unique (l : list Note) :
  StronglySorted (fun a b => timestamp b <= timestamp a) l ->
  (forall t, filter (fun n => timestamp n =? t) l
             = filter (fun n => timestamp n =? t) selected) ->
  l = getNotesForDate store d.
Proof.
  intros Hl Hf.
  apply (sorted_stable_unique timestamp);
    [exact Hl | exact getNotesForDate_sorted |].
  intro t. rewrite Hf, getNotesForDate_stable. reflexivity.
Qed.

End DateIndex.

(** C1.  For every store and every date [d], [getNotesForDate] returns
    exactly the notes whose [date] is the canonical string of [d] (same
    members, same multiplicities), in descending [timestamp] order, and
    notes with equal timestamps appear in their store order; the result
    is the only list with these properties. *)
Theorem getNotesForDate_spec (store : list Note) (d : Date) :
  let result := getNotesForDate store d in
  let selected :=
    filter (fun n => Js.eqb (date n) (toISODateString d)) store in
  (forall n, In n result <-> In n store /\ date n = toISODateString d) /\
  Permutation selected result /\
  StronglySorted (fun a b => timestamp b <= timestamp a) result /\
  (forall t, filter (fun n => timestamp n =? t) result
             = filter (fun n => timestamp n =? t) selected) /\
  (forall l, StronglySorted (fun a b => timestamp b <= timestamp a) l ->
             (forall t, filter (fun n => timestamp n =? t) l
                        = filter (fun n => timestamp n =? t) selected) ->
             l = result).
Proof.
  intros result selected. subst result selected.
  split; [intro n; apply getNotesForDate_In|].
  split; [apply getNotesForDate_perm|].
  split; [apply getNotesForDate_sorted|].
  split; [intro t; apply getNotesForDate_stable|].
  intros l Hl Hf. apply getNotesForDate_unique; assumption.
Qed.

Lemma getNotesForDate_spec_witness :
  getNotesForDate mixedStore (march 1)
  = [noteAt "2" "2024-03-01" 7 pink; noteAt "4" "2024-03-01" 7 green;
     noteAt "1" "2024-03-01" 5 yellow].
Proof.
  symmetry.
  apply (proj2 (proj2 (proj2 (proj2
           (getNotesForDate_spec mixedStore (march 1)))))).
  - repeat constructor; cbn; lia.
  - intro t.
    replace (filter (fun n => Js.eqb (date n) (toISODateString (march 1)))
                    mixedStore)
      with [noteAt "1" "2024-03-01" 5 yellow; noteAt "2" "2024-03-01" 7 pink;
            noteAt "4" "2024-03-01" 7 green]
      by (vm_compute; reflexivity).
    cbn [filter noteAt timestamp].
    destruct (Z.eqb_spec 7 t), (Z.eqb_spec 5 t); try reflexivity; lia.
Defined.

(** The newest note of the day comes first. *)
Lemma getNotesForDate_head (store : list Note) (d : Date) (h : Note)
      (rest : list Note) :
  getNotesForDate store d = h :: rest ->
  In h store /\ date h = toISODateString d /\
  forall n, In n store -> date n = toISODateString d ->
            timestamp n <= timestamp h.
Proof.
  intros E.
  pose proof (getNotesForDate_In store d) as Hin.
  pose proof (getNotesForDate_sorted store d) as Hs.
  rewrite E in Hin, Hs.
  destruct (proj1 (Hin h) (or_introl eq_refl)) as [H1 H2].
  repeat split; auto.
  intros n Hn Hd.
  destruct (proj2 (Hin n) (conj Hn Hd)) as [<-|Hr]; [lia|].
  inversion Hs as [|? ? _ Hall]; subst.
  rewrite Forall_forall in Hall. apply Hall, Hr.
Qed.

(** When the store is in descending timestamp order, as it is while the
    clock never runs backwards (new notes go to the front), the date
    index is the plain filter: the first note of a day is the one added
    last. *)
Lemma getNotesForDate_of_sorted_store (store : list Note) (d : Date) :
  StronglySorted (fun a b => timestamp b <= timestamp a) store ->
  getNotesForDate store d
  = filter (fun n => Js.eqb (date n) (toISODateString d)) store.
Proof.
  intros Hs. symmetry. apply getNotesForDate_unique; [|reflexivity].
  induction Hs as [|a l Hl IH Ha]; cbn [filter]; [constructor|].
  destruct (Js.eqb (date a) (toISODateString d)); [|exact IH].
  constructor; [exact IH|].
  rewrite Forall_forall in *. intros n Hn. apply filter_In in Hn.
  apply Ha, Hn.
Qed.

(** The end-to-end scenario of the specification: "Buy milk" and then
    "Call mom" created on the same day are listed newest first. *)
Example buy_milk_then_call_mom :
  let trace :=
    [ClickNewNote 0; TypeContent (Js.str "Buy milk"); ClickSave 10 10 0;
     ClickNewNote 0; TypeContent (Js.str "Call mom"); ClickSave 20 20 0] in
  feasible trace startOfMarch = true /\
  map content (getNotesForDate (notes (run trace startOfMarch)) (march 1))
  = [Js.str "Call mom"; Js.str "Buy milk"].
Proof. vm_compute. split; reflexivity. Qed.

(** ** How each handler touches the store *)

Ltac crush_handler :=
  repeat match goal with
         | |- context [match ?x with _ => _ end] => destruct x eqn:?
         end;
  cbn in *; try reflexivity; try congruence; auto.

Lemma handleSaveNote_rejected now1 now2 random st :
  Js.trim (newNoteContent st) = [] ->
  handleSaveNote now1 now2 random st = st.
Proof. intros E. unfold handleSaveNote. rewrite E. reflexivity. Qed.

Lemma handleSaveNote_accepted now1 now2 random st :
  Js.trim (newNoteContent st) <> [] ->
  handleSaveNote now1 now2 random st
  = setIsModalOpen false
      (setEditingNoteId None
         (setNewNoteContent [] (setNotes (savedNotes now1 now2 random st) st))).
Proof.
  intros H. apply truthy_true in H.
  unfold handleSaveNote, savedNotes. rewrite H. cbn [negb].
  destruct (editingNoteId st) as [e|]; [destruct (Js.truthy e)|];
    reflexivity.
Qed.

Lemma notes_step (ev : Event) (st : AppState) :
  notes (step ev st) = notes st \/
  (exists now1 now2 random,
      ev = ClickSave now1 now2 random /\
      Js.trim (newNoteContent st) <> [] /\
      notes (step ev st) = savedNotes now1 now2 random st) \/
  (exists t, ev = ClickDiscard /\ actionNote st = Some t /\
             notes (step ev st)
             = filter (fun n => negb (Js.eqb (id n) (id t))) (notes st)).
Proof.
  destruct ev; cbn [step];
    try (left; unfold handleVisibilityChange, handleViewSwitch,
         toggleGridMode, handleDateChange, openNewNoteModal,
         handleLongPressNote, handleEditAction, handleDeleteAction;
         crush_handler; fail).
  - destruct (Js.trim (newNoteContent st)) eqn:E.
    + left. rewrite handleSaveNote_rejected; auto.
    + right; left. exists now1, now2, random.
      assert (Hne : Js.trim (newNoteContent st) <> []) by congruence.
      rewrite <- E. repeat split; auto.
      rewrite handleSaveNote_accepted by exact Hne. reflexivity.
  - unfold confirmDelete. destruct (actionNote st) as [t|] eqn:E.
    + right; right. exists t. repeat split; reflexivity.
    + left. reflexivity.
Qed.

(** ** Note content *)

Lemma contentNonBlank_savedNotes now1 now2 random st :
  Js.trim (newNoteContent st) <> [] ->
  contentNonBlank (notes st) ->
  contentNonBlank (savedNotes now1 now2 random st).
Proof.
  intros Hbuf Hinv. unfold savedNotes, contentNonBlank in *.
  assert (Hnew : Forall (fun n => Js.trim (content n) <> [])
                        (createdNote now1 now2 random st :: notes st))
    by (constructor; [exact Hbuf | exact Hinv]).
  destruct (editingNoteId st) as [e|]; [destruct (Js.truthy e)|]; auto.
  unfold editedNotes. rewrite Forall_forall in *. intros n' Hin.
  apply in_map_iff in Hin. destruct Hin as (n & <- & Hn).
  destruct (Js.eqb (id n) e); [exact Hbuf | auto].
Qed.

Lemma contentNonBlank_step (ev : Event) (st : AppState) :
  contentNonBlank (notes st) -> contentNonBlank (notes (step ev st)).
Proof.
  intros Hinv.
  destruct (notes_step ev st)
    as [E | [(now1 & now2 & random & _ & Hbuf & E) | (t & _ & _ & E)]];
    rewrite E.
  - exact Hinv.
  - apply contentNonBlank_savedNotes; assumption.
  - unfold contentNonBlank in *. rewrite Forall_forall in *.
    intros n Hin. apply filter_In in Hin. apply Hinv, Hin.
Qed.

Lemma contentNonBlank_run (evs : list Event) (st : AppState) :
  contentNonBlank (notes st) -> contentNonBlank (notes (run evs st)).
Proof.
  revert st. induction evs as [|ev evs IH]; intros st Hinv; [exact Hinv|].
  cbn [run fold_left]. apply IH, contentNonBlank_step, Hinv.
Qed.

(** C2, the claim as stated fails: the untrimmed buffer is what gets
    stored.  Typing [" a"] into a new note and saving leaves a note whose
    content differs from its own trim. *)
Lemma stored_content_not_trimmed :
  let trace := [ClickNewNote 0; TypeContent (Js.str " a"); ClickSave 5 5 0] in
  feasible trace startOfMarch = true /\
  exists n, In n (notes (run trace startOfMarch)) /\
            content n <> Js.trim (content n).
Proof.
  split; [vm_compute; reflexivity|].
  exists (mkNote (Js.str "5") (Js.str " a") (Js.str "2024-03-01") 5 yellow
                 (-3 # 1)).
  vm_compute. split; [left; reflexivity | discriminate].
Qed.

(** C2, amended.  Starting from a store whose notes all have non-blank
    content (the empty store in particular), after any sequence of events
    every stored note still has content whose trim is non-empty; the
    content is stored as typed.  A save whose buffer trims to the empty
    string is rejected there: the whole state, store included, stays as
    it was. *)
Theorem stored_content_non_blank
        (evs : list Event) (st0 : AppState) (now1 now2 : Z) (random : Q) :
  contentNonBlank (notes st0) ->
  let st := run evs st0 in
  contentNonBlank (notes st) /\
  (Js.trim (newNoteContent st) = [] ->
   step (ClickSave now1 now2 random) st = st).
Proof.
  intros Hinv st. split.
  - apply contentNonBlank_run, Hinv.
  - intros Hblank. apply handleSaveNote_rejected, Hblank.
Qed.

Lemma stored_content_non_blank_witness :
  let evs := [ClickNewNote 0; TypeContent (Js.str " a"); ClickSave 5 5 0;
              ClickNewNote 0; TypeContent (Js.str "  ")] in
  contentNonBlank (notes (run evs startOfMarch)) /\
  step (ClickSave 6 6 0) (run evs startOfMarch) = run evs startOfMarch.
Proof.
  intros evs.
  destruct (stored_content_non_blank evs startOfMarch 6 6 0) as [H1 H2].
  - constructor.
  - split; [exact H1 | apply H2; vm_compute; reflexivity].
Defined.

(** ** Deleting *)

Lemma filter_id_absent (i : JsString) (l : list Note) :
  (forall n, In n l -> id n <> i) ->
  filter (fun n => negb (Js.eqb (id n) i)) l = l.
Proof.
  induction l as [|a l IH]; intros H; [reflexivity|].
  cbn [filter].
  assert (Ha : Js.eqb (id a) i = false)
    by (apply eqb_neq, H; left; reflexivity).
  rewrite Ha. cbn [negb]. f_equal. apply IH.
  intros n Hn. apply H. right. exact Hn.
Qed.

Lemma filter_id_unique (i : JsString) (l : list Note) :
  uniqueIds l ->
  (exists n, In n l /\ id n = i) ->
  exists l1 n l2,
    l = l1 ++ n :: l2 /\ id n = i /\
    filter (fun n => negb (Js.eqb (id n) i)) l = l1 ++ l2.
Proof.
  unfold uniqueIds.
  induction l as [|a l IH]; intros Hnd (n & Hin & Hid); [contradiction|].
  cbn [map] in Hnd. inversion Hnd as [|? ? Hnotin Hnd']; subst.
  cbn [filter]. destruct (Js.eqb (id a) (id n)) eqn:E.
  - apply eqb_eq in E. exists [], a, l. cbn [app negb].
    repeat split; auto.
    apply filter_id_absent. intros m Hm Heq. apply Hnotin.
    rewrite E, <- Heq. apply in_map, Hm.
  - cbn [negb]. destruct Hin as [->|Hin].
    { rewrite eqb_refl in E. discriminate. }
    destruct (IH Hnd' (ex_intro _ n (conj Hin eq_refl)))
      as (l1 & m & l2 & -> & Hm & Hf).
    exists (a :: l1), m, l2. cbn [app]. rewrite Hf. auto.
Qed.

(** C3, the claim as stated fails: in the store left by two creations
    at the same clock instant both notes carry the same id, and a
    confirmed delete of one of them removes both entries. *)
Lemma confirmDelete_removes_two_entries :
  let t := mkNote (Js.str "5") (Js.str "b") (Js.str "2024-03-01") 5 pink
                  (-3 # 1) in
  let st := run [LongPress t; ClickDelete] collidingStore in
  In t (notes collidingStore) /\
  feasible [LongPress t; ClickDelete; ClickDiscard] collidingStore = true /\
  actionNote st = Some t /\
  length (notes st) = 2%nat /\
  length (notes (confirmDelete st)) = 0%nat.
Proof.
  vm_compute. repeat split. left. reflexivity.
Qed.

(** C3, amended.  For every store whose ids are pairwise distinct and
    every confirmed delete with target note [t]: if some note in the
    store has id [t.id], the delete removes exactly one entry, the one
    with that id, and keeps all other notes, in order; if no note has
    that id, the store is unchanged. *)
Theorem confirmDelete_removes_exactly_one (st : AppState) (t : Note) :
  actionNote st = Some t ->
  uniqueIds (notes st) ->
  let st' := confirmDelete st in
  ((exists n, In n (notes st) /\ id n = id t) ->
   exists l1 n l2,
     notes st = l1 ++ n :: l2 /\ id n = id t /\ notes st' = l1 ++ l2) /\
  ((forall n, In n (notes st) -> id n <> id t) -> notes st' = notes st).
Proof.
  intros Ht Huniq st'.
  assert (E : notes st'
              = filter (fun n => negb (Js.eqb (id n) (id t))) (notes st)).
  { unfold st', confirmDelete. rewrite Ht. reflexivity. }
  rewrite E. split.
  - intros Hex. apply filter_id_unique; assumption.
  - apply filter_id_absent.
Qed.

Lemma confirmDelete_removes_exactly_one_witness :
  let a := mkNote (Js.str "1") (Js.str "a") (Js.str "2024-03-01") 1 yellow 0 in
  let b := mkNote (Js.str "2") (Js.str "b") (Js.str "2024-03-01") 2 pink 0 in
  let st := setActionNote (Some a) (setNotes [b; a] startOfMarch) in
  (exists l1 n l2,
      notes st = l1 ++ n :: l2 /\ id n = id a /\
      notes (confirmDelete st) = l1 ++ l2).
Proof.
  intros a b st.
  assert (Huniq : uniqueIds (notes st)).
  { repeat constructor; cbn; intuition discriminate. }
  destruct (confirmDelete_removes_exactly_one st a eq_refl Huniq) as [H _].
  apply H. exists a. split; [right; left; reflexivity | reflexivity].
Defined.

(** ** Identifiers *)

Lemma uniqueIds_filter (f : Note -> bool) (l : list Note) :
  uniqueIds l -> uniqueIds (filter f l).
Proof.
  unfold uniqueIds. induction l as [|a l IH]; intros H; [exact H|].
  cbn [map] in H. inversion H as [|? ? Hnotin Hnd]; subst.
  cbn [filter]. destruct (f a); [|auto].
  cbn [map]. constructor; [|auto].
  intros Hin. apply Hnotin. apply in_map_iff in Hin.
  destruct Hin as (n & Hn & Hin). apply filter_In in Hin.
  rewrite <- Hn. apply in_map. tauto.
Qed.

Lemma editedNotes_ids (e : JsString) (st : AppState) :
  map id (editedNotes e st) = map id (notes st).
Proof.
  unfold editedNotes. rewrite map_map. apply map_ext.
  intros n. destruct (Js.eqb (id n) e); reflexivity.
Qed.

(** Editing and deleting keep ids distinct; a creation does so when the
    clock value it reads is not yet in use as an id. *)
Lemma uniqueIds_step (ev : Event) (st : AppState) :
  (forall now1 now2 random,
      ev = ClickSave now1 now2 random ->
      forall n, In n (notes st) -> id n <> Js.toString now1) ->
  uniqueIds (notes st) -> uniqueIds (notes (step ev st)).
Proof.
  intros Hfresh Hinv.
  destruct (notes_step ev st)
    as [E | [(now1 & now2 & random & Hev & _ & E) | (t & _ & _ & E)]];
    rewrite E.
  - exact Hinv.
  - assert (Hnew : uniqueIds (createdNote now1 now2 random st :: notes st)).
    { unfold uniqueIds. cbn [map]. constructor; [|exact Hinv].
      intros Hin. apply in_map_iff in Hin. destruct Hin as (n & Hn & Hin).
      exact (Hfresh _ _ _ Hev n Hin Hn). }
    unfold savedNotes.
    destruct (editingNoteId st) as [e|]; [destruct (Js.truthy e)|]; auto.
    unfold uniqueIds. rewrite editedNotes_ids. exact Hinv.
  - apply uniqueIds_filter, Hinv.
Qed.

(** C4, checked on the code.  Starting from the empty store, creating
    two notes while [Date.now()] returns the same value is a trace the
    interface offers, and it leaves two stored notes with the same id. *)
Theorem same_instant_creations_share_id :
  feasible twoSameInstant startOfMarch = true /\
  uniqueIds (notes startOfMarch) /\
  map id (notes collidingStore) = [Js.str "5"; Js.str "5"] /\
  ~ uniqueIds (notes collidingStore).
Proof.
  split; [vm_compute; reflexivity|].
  split; [constructor|].
  split; [vm_compute; reflexivity|].
  unfold uniqueIds.
  replace (map id (notes collidingStore)) with [Js.str "5"; Js.str "5"]
    by (vm_compute; reflexivity).
  intros H. inversion H as [|? ? Hnotin _]; subst.
  apply Hnotin. left. reflexivity.
Qed.

(** ** Editing *)

Lemma handleSaveNote_edit now1 now2 random st e :
  editingNoteId st = Some e -> e <> [] ->
  Js.trim (newNoteContent st) <> [] ->
  handleSaveNote now1 now2 random st
  = setIsModalOpen false
      (setEditingNoteId None
         (setNewNoteContent [] (setNotes (editedNotes e st) st))).
Proof.
  intros He Hne Hbuf. rewrite handleSaveNote_accepted by exact Hbuf.
  unfold savedNotes. rewrite He.
  apply truthy_true in Hne. rewrite Hne. reflexivity.
Qed.

Lemma editedNotes_absent (e : JsString) (st : AppState) :
  (forall n, In n (notes st) -> id n <> e) -> editedNotes e st = notes st.
Proof.
  unfold editedNotes. intros H.
  induction (notes st) as [|a l IH]; [reflexivity|].
  cbn [map].
  assert (Ha : Js.eqb (id a) e = false)
    by (apply eqb_neq, H; left; reflexivity).
  rewrite Ha. f_equal. apply IH. intros n Hn. apply H. right. exact Hn.
Qed.

Lemma nth_error_unique_id (l : list Note) (i j : nat) (n m : Note) :
  uniqueIds l ->
  nth_error l i = Some n -> nth_error l j = Some m -> id n = id m -> i = j.
Proof.
  unfold uniqueIds. intros Hnd Hi Hj Hid.
  apply (proj1 (NoDup_nth_error (map id l)) Hnd).
  - rewrite length_map. apply nth_error_Some. congruence.
  - rewrite !nth_error_map, Hi, Hj. cbn. congruence.
Qed.

(** What a save in edit mode does in any store, duplicates of an id
    included: it keeps the number and order of the notes; every note
    keeps its id, date, timestamp, color and rotation; the notes
    carrying the edited id get the buffer as content; every note with
    another id is unchanged. *)
Theorem edit_save_changes_only_content
        (st : AppState) (e : JsString) (now1 now2 : Z) (random : Q) :
  editingNoteId st = Some e -> e <> [] ->
  Js.trim (newNoteContent st) <> [] ->
  let st' := handleSaveNote now1 now2 random st in
  length (notes st') = length (notes st) /\
  (forall i n,
      nth_error (notes st) i = Some n ->
      exists n',
        nth_error (notes st') i = Some n' /\
        id n' = id n /\ date n' = date n /\ timestamp n' = timestamp n /\
        color n' = color n /\ rotation n' = rotation n /\
        (id n = e -> content n' = newNoteContent st) /\
        (id n <> e -> n' = n)) /\
  (uniqueIds (notes st) ->
   forall i j n m,
     nth_error (notes st) i = Some n -> id n = e -> j <> i ->
     nth_error (notes st) j = Some m ->
     nth_error (notes st') j = Some m).
Proof.
  intros He Hne Hbuf st'.
  assert (E : notes st' = editedNotes e st)
    by (unfold st'; rewrite (handleSaveNote_edit _ _ _ _ e); auto).
  rewrite E.
  assert (Hpos : forall i n,
             nth_error (notes st) i = Some n ->
             nth_error (editedNotes e st) i
             = Some (if Js.eqb (id n) e
                     then withContent n (newNoteContent st) else n)).
  { intros i n Hi. unfold editedNotes. rewrite nth_error_map, Hi.
    reflexivity. }
  split; [unfold editedNotes; apply length_map|]. split.
  - intros i n Hi. eexists. split; [apply Hpos, Hi|].
    destruct (Js.eqb (id n) e) eqn:Hid; cbn; repeat split; auto.
    + intros Hx. apply eqb_eq in Hid. contradiction.
    + intros Hx. apply eqb_neq in Hid. contradiction.
  - intros Huniq i j n m Hi Hid Hji Hj.
    rewrite (Hpos j m Hj).
    destruct (Js.eqb (id m) e) eqn:Hm; [|reflexivity].
    apply eqb_eq in Hm. exfalso. apply Hji.
    apply (nth_error_unique_id (notes st) j i m n); congruence.
Qed.

Lemma edit_save_changes_only_content_witness :
  let st := run [LongPress noteA; ClickEdit; TypeContent (Js.str "b")]
                wallWithOneNote in
  exists n',
    nth_error (notes (handleSaveNote 9 9 0 st)) 0 = Some n' /\
    id n' = id noteA /\ date n' = date noteA /\
    timestamp n' = timestamp noteA /\
    color n' = color noteA /\ rotation n' = rotation noteA /\
    content n' = Js.str "b".
Proof.
  intros st.
  assert (He : editingNoteId st = Some (Js.str "5"))
    by (vm_compute; reflexivity).
  assert (Hne : Js.str "5" <> []) by (vm_compute; discriminate).
  assert (Hbuf : Js.trim (newNoteContent st) <> [])
    by (vm_compute; discriminate).
  destruct (edit_save_changes_only_content st (Js.str "5") 9 9 0 He Hne Hbuf)
    as (_ & H & _).
  assert (H0 : nth_error (notes st) 0 = Some noteA)
    by (vm_compute; reflexivity).
  destruct (H 0%nat noteA H0)
    as (n' & Hn & Hid & Hd & Ht & Hc & Hr & Hcont & _).
  exists n'. repeat split; auto.
Defined.

Lemma edit_map_absent (e c : JsString) (l : list Note) :
  (forall n, In n l -> id n <> e) ->
  map (fun n => if Js.eqb (id n) e then withContent n c else n) l = l.
Proof.
  induction l as [|a l IH]; intros H; [reflexivity|].
  cbn [map].
  assert (Ha : Js.eqb (id a) e = false)
    by (apply eqb_neq, H; left; reflexivity).
  rewrite Ha. f_equal. apply IH. intros n Hn. apply H. right. exact Hn.
Qed.

Lemma edit_map_unique (e c : JsString) (l : list Note) :
  uniqueIds l ->
  (exists n, In n l /\ id n = e) ->
  exists l1 n l2,
    l = l1 ++ n :: l2 /\ id n = e /\
    map (fun n => if Js.eqb (id n) e then withContent n c else n) l
    = l1 ++ withContent n c :: l2.
Proof.
  unfold uniqueIds.
  induction l as [|a l IH]; intros Hnd (n & Hin & Hid); [contradiction|].
  cbn [map] in Hnd. inversion Hnd as [|? ? Hnotin Hnd']; subst.
  cbn [map]. destruct (Js.eqb (id a) (id n)) eqn:E.
  - apply eqb_eq in E. exists [], a, l. cbn [app].
    repeat split; auto. f_equal.
    apply edit_map_absent. intros m Hm Heq. apply Hnotin.
    rewrite E, <- Heq. apply in_map, Hm.
  - destruct Hin as [->|Hin].
    { rewrite eqb_refl in E. discriminate. }
    destruct (IH Hnd' (ex_intro _ n (conj Hin eq_refl)))
      as (l1 & m & l2 & -> & Hm & Hf).
    exists (a :: l1), m, l2. cbn [app]. rewrite Hf. auto.
Qed.

(** C5, the claim as stated fails: in the store left by two creations
    at the same clock instant both notes carry the id "5"; editing the
    note "b" and saving "c" rewrites the content of the other note, "a",
    as well. *)
Lemma edit_rewrites_both_entries :
  let t := mkNote (Js.str "5") (Js.str "b") (Js.str "2024-03-01") 5 pink
                  (-3 # 1) in
  let st := run [LongPress t; ClickEdit; TypeContent (Js.str "c")]
                collidingStore in
  feasible [LongPress t; ClickEdit; TypeContent (Js.str "c"); ClickSave 9 9 0]
           collidingStore = true /\
  editingNoteId st = Some (Js.str "5") /\
  map content (notes st) = [Js.str "b"; Js.str "a"] /\
  map content (notes (handleSaveNote 9 9 0 st)) = [Js.str "c"; Js.str "c"].
Proof. vm_compute. repeat split. Qed.

(** C5, amended.  In a store whose ids are pairwise distinct, saving in
    edit mode for an existing note id changes only that note's content
    field: the store after the save is the store before with that one
    note replaced, in place, by a note with the buffer as content and
    the same id, date, timestamp, color and rotation; every other note
    is unchanged. *)
Theorem edit_save_changes_one_note
        (st : AppState) (e : JsString) (now1 now2 : Z) (random : Q) :
  uniqueIds (notes st) ->
  editingNoteId st = Some e -> e <> [] ->
  Js.trim (newNoteContent st) <> [] ->
  (exists n, In n (notes st) /\ id n = e) ->
  let st' := handleSaveNote now1 now2 random st in
  exists l1 n n' l2,
    notes st = l1 ++ n :: l2 /\ id n = e /\
    notes st' = l1 ++ n' :: l2 /\
    content n' = newNoteContent st /\
    id n' = id n /\ date n' = date n /\ timestamp n' = timestamp n /\
    color n' = color n /\ rotation n' = rotation n.
Proof.
  intros Hu He Hne Hbuf Hex st'.
  assert (E : notes st' = editedNotes e st)
    by (unfold st'; rewrite (handleSaveNote_edit _ _ _ _ e); auto).
  destruct (edit_map_unique e (newNoteContent st) (notes st) Hu Hex)
    as (l1 & n & l2 & Hsplit & Hid & Hmap).
  exists l1, n, (withContent n (newNoteContent st)), l2.
  split; [exact Hsplit|]. split; [exact Hid|].
  split; [rewrite E; exact Hmap|]. repeat split.
Qed.

Lemma edit_save_changes_one_note_witness :
  let st := run [LongPress noteA; ClickEdit; TypeContent (Js.str "b")]
                wallWithOneNote in
  exists l1 n n' l2,
    notes st = l1 ++ n :: l2 /\ id n = Js.str "5" /\
    notes (handleSaveNote 9 9 0 st) = l1 ++ n' :: l2 /\
    content n' = newNoteContent st /\
    id n' = id n /\ date n' = date n /\ timestamp n' = timestamp n /\
    color n' = color n /\ rotation n' = rotation n.
Proof.
  intros st.
  assert (Hu : uniqueIds (notes st)).
  { unfold uniqueIds.
    replace (map id (notes st)) with [Js.str "5"] by (vm_compute; reflexivity).
    repeat constructor. intros []. }
  assert (He : editingNoteId st = Some (Js.str "5"))
    by (vm_compute; reflexivity).
  assert (Hne : Js.str "5" <> []) by (vm_compute; discriminate).
  assert (Hbuf : Js.trim (newNoteContent st) <> [])
    by (vm_compute; discriminate).
  assert (Hex : exists n, In n (notes st) /\ id n = Js.str "5").
  { exists noteA. split; [left; vm_compute; reflexivity|].
    vm_compute; reflexivity. }
  exact (edit_save_changes_one_note st (Js.str "5") 9 9 0 Hu He Hne Hbuf Hex).
Defined.

(** C10.  A save in edit mode that passes the blank-buffer guard while
    no stored note carries the edited id leaves the store unchanged and
    still closes the editor: the modal is closed and the buffer and the
    edit target are cleared; nothing else in the state changes. *)
Theorem edit_save_absent_target
        (st : AppState) (e : JsString) (now1 now2 : Z) (random : Q) :
  editingNoteId st = Some e -> e <> [] ->
  Js.trim (newNoteContent st) <> [] ->
  (forall n, In n (notes st) -> id n <> e) ->
  let st' := handleSaveNote now1 now2 random st in
  notes st' = notes st /\
  editorClosed st' /\
  st' = setIsModalOpen false (setEditingNoteId None (setNewNoteContent [] st)).
Proof.
  intros He Hne Hbuf Habs st'.
  assert (E : st' = setIsModalOpen false
                      (setEditingNoteId None (setNewNoteContent [] st))).
  { unfold st'. rewrite (handleSaveNote_edit _ _ _ _ e) by assumption.
    rewrite editedNotes_absent by exact Habs.
    destruct st; reflexivity. }
  rewrite E. repeat split.
Qed.

Lemma edit_save_absent_target_witness :
  let st := run [LongPress noteA; ClickEdit; TypeContent (Js.str "b")]
                (setNotes [] wallWithOneNote) in
  notes (handleSaveNote 9 9 0 st) = [] /\
  editorClosed (handleSaveNote 9 9 0 st).
Proof.
  intros st.
  assert (He : editingNoteId st = Some (Js.str "5"))
    by (vm_compute; reflexivity).
  assert (Hne : Js.str "5" <> []) by (vm_compute; discriminate).
  assert (Hbuf : Js.trim (newNoteContent st) <> [])
    by (vm_compute; discriminate).
  assert (Habs : forall n, In n (notes st) -> id n <> Js.str "5")
    by (intros n []).
  destruct (edit_save_absent_target st (Js.str "5") 9 9 0 He Hne Hbuf Habs)
    as (H1 & H2 & _).
  split; [exact H1 | exact H2].
Defined.

(** ** The action flow *)

(** What Keep and the two backdrops do: they close their own overlay
    and touch nothing else, the captured target included. *)
Lemma dismissals_only_close (st : AppState) :
  step ClickKeep st = setIsDeleteConfirmOpen false st /\
  step DismissConfirm st = setIsDeleteConfirmOpen false st /\
  step DismissDrawer st = setIsDrawerOpen false st /\
  notes (step ClickKeep st) = notes st /\
  notes (step DismissConfirm st) = notes st /\
  notes (step DismissDrawer st) = notes st /\
  actionNote (step ClickKeep st) = actionNote st /\
  actionNote (step DismissConfirm st) = actionNote st /\
  actionNote (step DismissDrawer st) = actionNote st.
Proof. repeat split. Qed.

(** C9, checked on the code.  After a long press on the note and Delete,
    choosing Keep (or clicking either backdrop) closes the overlay and
    leaves the store as it was, but the captured target is still set;
    only Discard clears it. *)
Theorem keep_leaves_action_target_set :
  let st0 := wallWithOneNote in
  let kept := run [LongPress noteA; ClickDelete; ClickKeep] st0 in
  notes st0 = [noteA] /\
  feasible [LongPress noteA; ClickDelete; ClickKeep] st0 = true /\
  actionIdle kept /\ notes kept = notes st0 /\
  actionNote kept = Some noteA /\
  actionNote (run [LongPress noteA; ClickDelete; DismissConfirm] st0)
  = Some noteA /\
  actionNote (run [LongPress noteA; DismissDrawer] st0) = Some noteA /\
  actionNote (run [LongPress noteA; ClickDelete; ClickDiscard] st0) = None.
Proof. vm_compute. repeat split. Qed.

(** ** Date strings and the new-day check *)

Lemma str_inj (a b : string) : Js.str a = Js.str b -> a = b.
Proof.
  unfold Js.str. intros H.
  assert (Hback : forall l, map ascii_of_N (map N_of_ascii l) = l).
  { induction l as [|c l IH]; cbn; [reflexivity|].
    rewrite ascii_N_embedding, IH. reflexivity. }
  apply (f_equal (map ascii_of_N)) in H. rewrite !Hback in H.
  apply (f_equal string_of_list_ascii) in H.
  rewrite !string_of_list_ascii_of_string in H. exact H.
Qed.

Lemma toString_inj (a b : Z) : Js.toString a = Js.toString b -> a = b.
Proof.
  unfold Js.toString. intros H. apply str_inj in H.
  assert (Hproper : forall z, Z.to_int z <> Decimal.Pos Decimal.Nil /\
                              Z.to_int z <> Decimal.Neg Decimal.Nil).
  { intros [|p|p]; cbn; split; try discriminate;
      intros [= E]; exact (DecimalPos.Unsigned.to_uint_nonnil p E). }
  apply (f_equal NilZero.int_of_string) in H.
  rewrite !NilZero.isi in H by apply Hproper.
  injection H as H. apply DecimalZ.to_int_inj, H.
Qed.

Lemma app_inv_same_length {A : Type} (l1 l2 s1 s2 : list A) :
  l1 ++ s1 = l2 ++ s2 -> length s1 = length s2 -> l1 = l2 /\ s1 = s2.
Proof.
  revert l2. induction l1 as [|x l1 IH]; intros [|y l2] H Hlen; cbn in H.
  - auto.
  - apply (f_equal (@length A)) in H. cbn in H. rewrite length_app in H. lia.
  - apply (f_equal (@length A)) in H. cbn in H. rewrite length_app in H. lia.
  - injection H as -> H. destruct (IH l2 H Hlen) as [-> ->]. auto.
Qed.

Lemma below_checked (P : Z -> bool) (n : nat) :
  forallb P (map Z.of_nat (seq 0 n)) = true ->
  forall v, 0 <= v < Z.of_nat n -> P v = true.
Proof.
  intros H v Hv. rewrite forallb_forall in H. apply H.
  apply in_map_iff. exists (Z.to_nat v). split; [lia|].
  apply in_seq. lia.
Qed.

Lemma twoDigits_decode (v : Z) :
  0 <= v < 100 -> length (twoDigits v) = 2%nat /\ decode2 (twoDigits v) = v.
Proof.
  intros Hv.
  pose proof (below_checked
                (fun v => (length (twoDigits v) =? 2)%nat
                          && (decode2 (twoDigits v) =? v))
                100 ltac:(vm_compute; reflexivity) v Hv) as H.
  cbv beta in H. apply andb_true_iff in H. destruct H as [H1 H2].
  split; [apply Nat.eqb_eq, H1 | apply Z.eqb_eq, H2].
Qed.

Lemma toISODateString_sameDay (a b : Date) :
  sameDay a b -> toISODateString a = toISODateString b.
Proof.
  intros (Hy & Hm & Hd). unfold toISODateString. rewrite Hy, Hm, Hd.
  reflexivity.
Qed.

(** On valid dates the canonical string identifies the calendar day. *)
Lemma toISODateString_inj (a b : Date) :
  validDay a -> validDay b ->
  toISODateString a = toISODateString b -> sameDay a b.
Proof.
  intros [Hma Hda] [Hmb Hdb] H. unfold toISODateString in H.
  fold (twoDigits (getMonth a + 1)) (twoDigits (getDate a))
       (twoDigits (getMonth b + 1)) (twoDigits (getDate b)) in H.
  destruct (twoDigits_decode (getMonth a + 1)) as [La Ea]; [lia|].
  destruct (twoDigits_decode (getMonth b + 1)) as [Lb Eb]; [lia|].
  destruct (twoDigits_decode (getDate a)) as [La' Ea']; [lia|].
  destruct (twoDigits_decode (getDate b)) as [Lb' Eb']; [lia|].
  apply app_inv_same_length in H.
  2:{ rewrite !length_app, La, Lb, La', Lb'. reflexivity. }
  destruct H as [Hy H]. apply toString_inj in Hy.
  apply (app_inv_head (Js.str "-")) in H.
  apply app_inv_same_length in H.
  2:{ rewrite !length_app, La', Lb'. reflexivity. }
  destruct H as [Hm H]. apply (app_inv_head (Js.str "-")) in H.
  unfold sameDay. rewrite Hm in Ea. rewrite H in Ea'.
  repeat split; lia.
Qed.

Lemma dayBefore_not_sameDay (a b : Date) : dayBefore a b -> ~ sameDay a b.
Proof. unfold dayBefore, sameDay. lia. Qed.

(** What the visibility handler does, in terms of calendar days: the
    selected date becomes today whenever the two days differ, in either
    direction, and is kept when they are the same day. *)
Lemma handleVisibilityChange_days (today : Date) (st : AppState) :
  validDay today -> validDay (currentDate st) ->
  let st' := handleVisibilityChange true today st in
  (sameDay today (currentDate st) -> st' = st) /\
  (~ sameDay today (currentDate st) -> st' = setCurrentDate today st) /\
  (dayBefore (currentDate st) today -> currentDate st' = today) /\
  (dayBefore today (currentDate st) -> currentDate st' = today).
Proof.
  intros Ht Hc st'. unfold st', handleVisibilityChange.
  destruct (Js.eqb (toISODateString today)
                   (toISODateString (currentDate st))) eqn:E; cbn [negb].
  - apply eqb_eq in E. apply toISODateString_inj in E; auto.
    repeat split.
    + intros _. destruct st; reflexivity.
    + intros H. contradiction.
    + intros H. apply dayBefore_not_sameDay in H.
      exfalso. apply H. unfold sameDay in *. lia.
    + intros H. apply dayBefore_not_sameDay in H. contradiction.
  - apply eqb_neq in E. repeat split; auto.
    intros H. exfalso. apply E, toISODateString_sameDay, H.
Qed.

Lemma handleVisibilityChange_hidden (today : Date) (st : AppState) :
  handleVisibilityChange false today st = st.
Proof. reflexivity. Qed.

(** C7, checked on the code.  With 2024-03-05 selected in the calendar
    while today is 2024-03-01, the selected date lies in the future; the
    foreground event nevertheless resets it to 2024-03-01. *)
Theorem visibility_resets_future_selection :
  let selectFuture := [ClickCalendarTab; SelectDay (march 5)] in
  let st := run selectFuture startOfMarch in
  feasible (selectFuture ++ [VisibilityChange true (march 1)]) startOfMarch
  = true /\
  currentDate st = march 5 /\
  dayBefore (march 1) (march 5) /\
  toISODateString (march 1) = Js.str "2024-03-01" /\
  toISODateString (march 5) = Js.str "2024-03-05" /\
  currentDate (step (VisibilityChange true (march 1)) st) = march 1.
Proof.
  cbv zeta. repeat split; try (vm_compute; reflexivity).
  unfold dayBefore, march. cbn. lia.
Qed.

(** ** The color of a new note *)

Lemma randomPick_in (arr : list NoteColor) (random : Q) :
  (0 <= random)%Q -> (random < 1)%Q -> arr <> [] ->
  exists c, randomPick arr random = Some c /\ In c arr.
Proof.
  intros H0 H1 Hne. unfold randomPick, Js.get, Js.floor.
  set (len := inject_Z (Z.of_nat (length arr))).
  assert (Hlen : (0 < len)%Q).
  { unfold len. replace 0%Q with (inject_Z 0) by reflexivity.
    rewrite <- Zlt_Qlt. destruct arr; [contradiction | cbn; lia]. }
  assert (Hlo : 0 <= Qfloor (random * len)).
  { replace 0 with (Qfloor 0) by reflexivity.
    apply Qfloor_resp_le, Qmult_le_0_compat; [exact H0|].
    apply Qlt_le_weak, Hlen. }
  assert (Hhi : Qfloor (random * len) < Z.of_nat (length arr)).
  { rewrite Zlt_Qlt. fold len.
    apply Qle_lt_trans with (random * len)%Q; [apply Qfloor_le|].
    setoid_replace len with (1 * len)%Q at 2 by (symmetry; apply Qmult_1_l).
    apply Qmult_lt_compat_r; assumption. }
  destruct (Z.ltb_spec (Qfloor (random * len)) 0) as [Hneg|_]; [lia|].
  destruct (nth_error arr (Z.to_nat (Qfloor (random * len)))) as [c|] eqn:E.
  - exists c. split; [reflexivity|]. eapply nth_error_In, E.
  - apply nth_error_None in E. lia.
Qed.

Lemma getRandomColorFrom_excluding
      (palette : list NoteColor) (random : Q) (e : NoteColor) :
  (0 <= random)%Q -> (random < 1)%Q ->
  ((exists c, In c palette /\ c <> e) ->
   exists c, getRandomColorFrom palette random (Some e) = Some c /\
             In c palette /\ c <> e) /\
  ((forall c, In c palette -> c = e) ->
   getRandomColorFrom palette random (Some e) = randomPick palette random).
Proof.
  intros H0 H1. unfold getRandomColorFrom.
  remember (filter (fun c => negb (NoteColor_eqb c e)) palette) as avail
    eqn:Ea.
  assert (Hmem : forall c, In c avail <-> In c palette /\ c <> e).
  { intros c. rewrite Ea, filter_In, negb_true_iff.
    rewrite <- NoteColor_eqb_eq.
    destruct (NoteColor_eqb c e); intuition congruence. }
  clear Ea. split.
  - intros (c0 & Hc0). apply Hmem in Hc0.
    destruct avail as [|a avail']; [contradiction|].
    cbn [length Nat.eqb].
    destruct (randomPick_in (a :: avail') random H0 H1) as (c & Hc & Hin);
      [discriminate|].
    exists c. split; [exact Hc | apply Hmem, Hin].
  - intros Hall. destruct avail as [|a avail']; [reflexivity|].
    exfalso. assert (Ha : In a (a :: avail')) by (left; reflexivity).
    apply Hmem in Ha. destruct Ha as [Ha Hne]. apply Hne, Hall, Ha.
Qed.

Lemma getRandomColor_defined (random : Q) (excludeColor : option NoteColor) :
  (0 <= random)%Q -> (random < 1)%Q ->
  exists c, getRandomColor random excludeColor = Some c /\ In c COLORS.
Proof.
  intros H0 H1. destruct excludeColor as [e|].
  - destruct (getRandomColorFrom_excluding COLORS random e H0 H1) as [H _].
    destruct H as (c & Hc & Hin & _).
    + destruct e; [exists pink | exists yellow ..]; cbn;
        split; auto 7; discriminate.
    + exists c. auto.
  - apply (randomPick_in COLORS random H0 H1). discriminate.
Qed.

(** C6.  When the create-note modal is opened while the selected date
    has at least one note, the color chosen differs from the color of
    the first note of that day's list (the most recently created one: a
    stored note of that date with the greatest timestamp), whatever the
    random source returns, and it is a palette color.  For
    an arbitrary palette: if some entry differs from that color the pick
    is such an entry; if none does (exclusion would empty the candidate
    set) the pick is the unconstrained pick from the palette. *)
Theorem new_note_color_avoids_latest
        (st : AppState) (random : Q) (latest : Note) (rest : list Note) :
  (0 <= random)%Q -> (random < 1)%Q ->
  currentNotes st = latest :: rest ->
  let st' := openNewNoteModal random st in
  (In latest (notes st) /\ date latest = toISODateString (currentDate st) /\
   forall n, In n (notes st) -> date n = toISODateString (currentDate st) ->
             timestamp n <= timestamp latest) /\
  (newNoteColor st' <> color latest /\ In (newNoteColor st') COLORS) /\
  forall palette : list NoteColor,
    ((exists c, In c palette /\ c <> color latest) ->
     exists c,
       getRandomColorFrom palette random (Some (color latest)) = Some c /\
       In c palette /\ c <> color latest) /\
    ((forall c, In c palette -> c = color latest) ->
     getRandomColorFrom palette random (Some (color latest))
     = randomPick palette random).
Proof.
  intros H0 H1 Hcur st'.
  split; [exact (getNotesForDate_head _ _ _ _ Hcur)|]. split.
  - destruct (getRandomColorFrom_excluding COLORS random (color latest) H0 H1)
      as [H _].
    destruct H as (c & Hc & Hin & Hne).
    { destruct (color latest); [exists pink | exists yellow ..]; cbn;
        split; auto 7; discriminate. }
    assert (E : newNoteColor st' = c).
    { unfold st', openNewNoteModal. unfold currentNotes in Hcur.
      rewrite Hcur. unfold getRandomColor. rewrite Hc. reflexivity. }
    rewrite E. auto.
  - intros palette. apply getRandomColorFrom_excluding; assumption.
Qed.

Lemma new_note_color_avoids_latest_witness :
  newNoteColor (openNewNoteModal (1 # 2) wallWithOneNote) <> yellow.
Proof.
  assert (H0 : (0 <= 1 # 2)%Q) by (vm_compute; discriminate).
  assert (H1 : (1 # 2 < 1)%Q) by (vm_compute; reflexivity).
  assert (Hcur : currentNotes wallWithOneNote = noteA :: [])
    by (vm_compute; reflexivity).
  exact (proj1 (proj1 (proj2 (new_note_color_avoids_latest
                                wallWithOneNote (1 # 2) noteA [] H0 H1 Hcur)))).
Defined.

(** ** The daily stack *)

Lemma handleDragEnd_past (x : Q) (st : DailyStack.State) :
  (DailyStack.swipeThreshold < x \/ x < - DailyStack.swipeThreshold)%Q ->
  DailyStack.currentIndex (DailyStack.handleDragEnd x st)
  = DailyStack.currentIndex st + 1.
Proof.
  intros Hx. unfold DailyStack.handleDragEnd.
  destruct (Qle_bool (Qabs x) DailyStack.swipeThreshold) eqn:E;
    [|reflexivity].
  apply Qle_bool_iff, Qabs_Qle_condition in E. destruct E as [E1 E2].
  exfalso. destruct Hx as [Hx|Hx].
  - exact (Qlt_not_le _ _ Hx E2).
  - exact (Qlt_not_le _ _ Hx E1).
Qed.

Lemma handleDragEnd_short (x : Q) (st : DailyStack.State) :
  (- DailyStack.swipeThreshold <= x <= DailyStack.swipeThreshold)%Q ->
  DailyStack.handleDragEnd x st = st.
Proof.
  intros Hx. unfold DailyStack.handleDragEnd.
  apply Qabs_Qle_condition, Qle_bool_iff in Hx. rewrite Hx. reflexivity.
Qed.

Lemma get_modulo (notes : list Note) (c : Z) :
  notes <> [] -> 0 <= c ->
  exists n,
    Js.get notes (Z.rem c (Z.of_nat (length notes))) = Some n /\
    nth_error notes (Z.to_nat (c mod Z.of_nat (length notes))) = Some n.
Proof.
  intros Hne Hc.
  assert (Hlen : 0 < Z.of_nat (length notes))
    by (destruct notes; [contradiction | cbn; lia]).
  rewrite Z.rem_mod_nonneg by lia.
  pose proof (Z.mod_pos_bound c _ Hlen) as Hb.
  unfold Js.get. destruct (Z.ltb_spec (c mod Z.of_nat (length notes)) 0);
    [lia|].
  destruct (nth_error notes (Z.to_nat (c mod Z.of_nat (length notes))))
    as [n|] eqn:E.
  - exists n. auto.
  - apply nth_error_None in E. lia.
Qed.

(** The cursor only ever counts swipes: it starts at 0 and never
    decreases, so it is never negative. *)
Lemma cursor_nonneg (notes : list Note) (gs : list DailyStack.Gesture)
      (st : DailyStack.State) :
  0 <= DailyStack.currentIndex st ->
  0 <= DailyStack.currentIndex
         (fold_left (fun s g => DailyStack.dispatch notes g s) gs st).
Proof.
  revert st. induction gs as [|g gs IH]; intros st H; [exact H|].
  cbn [fold_left]. apply IH. unfold DailyStack.dispatch.
  destruct (DailyStack.render notes st) as [[|a n b]|]; auto.
  destruct g; cbn; auto.
  unfold DailyStack.handleDragEnd.
  destruct (negb _); cbn; lia.
Qed.

(** C8.  For a cursor value [c >= 0] (the only values the cursor takes,
    lemma [cursor_nonneg]): with at least one note the active note is
    the element at index [c mod count] and the preview note the element
    at [(c + 1) mod count], they coincide when [count = 1], and a swipe
    past the threshold to the right or to the left moves the cursor to
    [c + 1]; with no note there is no active note, the placeholder is
    rendered and no gesture has any effect. *)
Theorem stack_cursor_is_modular (notes : list Note) (st : DailyStack.State) :
  0 <= DailyStack.currentIndex st ->
  let count := Z.of_nat (length notes) in
  let c := DailyStack.currentIndex st in
  (1 <= count ->
   exists a n,
     nth_error notes (Z.to_nat (c mod count)) = Some a /\
     nth_error notes (Z.to_nat ((c + 1) mod count)) = Some n /\
     DailyStack.activeNote notes st = Some a /\
     DailyStack.nextNote notes st = Some n /\
     DailyStack.render notes st
     = Some (DailyStack.Cards a (Some n) (1 <? length notes)%nat) /\
     (count = 1 -> a = n) /\
     (forall x,
         (DailyStack.swipeThreshold < x \/ x < - DailyStack.swipeThreshold)%Q ->
         DailyStack.currentIndex
           (DailyStack.dispatch notes (DailyStack.DragEnd x) st) = c + 1)) /\
  (count = 0 ->
   DailyStack.activeNote notes st = None /\
   DailyStack.render notes st = Some DailyStack.Placeholder /\
   forall g, DailyStack.dispatch notes g st = st).
Proof.
  intros Hc count c. split.
  - intros Hcount.
    assert (Hne : notes <> []) by (intros ->; cbn in count; lia).
    destruct (get_modulo notes c Hne Hc) as (a & Ha & Ha').
    destruct (get_modulo notes (c + 1) Hne ltac:(lia)) as (n & Hn & Hn').
    assert (Hr : DailyStack.render notes st
                 = Some (DailyStack.Cards a (Some n) (1 <? length notes)%nat)).
    { unfold DailyStack.render, DailyStack.activeNote, DailyStack.nextNote,
        DailyStack.activeIndex, DailyStack.nextIndex.
      fold c. rewrite Ha, Hn.
      destruct notes as [|x l]; [contradiction|]. cbn [length Nat.eqb].
      destruct (1 <? S (length l))%nat; reflexivity. }
    exists a, n. repeat split; auto.
    + intros H1. fold count in Ha', Hn'. rewrite H1 in Ha', Hn'.
      rewrite Z.mod_1_r in Ha', Hn'. congruence.
    + intros x Hx. unfold DailyStack.dispatch. rewrite Hr.
      apply handleDragEnd_past, Hx.
  - intros H0. assert (E : notes = [])
      by (destruct notes; [reflexivity | cbn in count; lia]).
    subst notes. repeat split.
    + unfold DailyStack.activeNote, DailyStack.activeIndex, Js.get.
      cbn [length Z.of_nat]. rewrite Z.rem_0_r_ext by reflexivity.
      destruct (DailyStack.currentIndex st <? 0); [reflexivity|].
      destruct (Z.to_nat (DailyStack.currentIndex st)); reflexivity.
Qed.

Lemma stack_cursor_is_modular_witness :
  let b := mkNote (Js.str "9") (Js.str "b") (Js.str "2024-03-01") 9 pink 0 in
  let st := DailyStack.swipes [b; noteA] [150 # 1; -150 # 1; 20 # 1]%Q
                              DailyStack.initial in
  DailyStack.currentIndex st = 2 /\
  DailyStack.activeNote [b; noteA] st = Some b /\
  DailyStack.nextNote [b; noteA] st = Some noteA.
Proof.
  intros b st.
  assert (Hc : 0 <= DailyStack.currentIndex st) by (vm_compute; discriminate).
  destruct (stack_cursor_is_modular [b; noteA] st Hc) as [H _].
  destruct H as (a & n & Ha & Hn & Hact & Hnext & _);
    [vm_compute; discriminate|].
  split; [vm_compute; reflexivity|].
  rewrite Hact, Hnext. split.
  - rewrite <- Ha. vm_compute. reflexivity.
  - rewrite <- Hn. vm_compute. reflexivity.
Defined.


(** * Further properties of the code *)

(** ** Date strings *)

(** X1.  On dates whose month and day are in range, [toISODateString]
    gives the same string exactly for the same calendar day: the time of
    day never matters and two different days never share a string. *)
Theorem toISODateString_identifies_day (a b : Date) :
  validDay a -> validDay b ->
  (toISODateString a = toISODateString b <-> sameDay a b).
Proof.
  intros Ha Hb. split.
  - apply toISODateString_inj; assumption.
  - apply toISODateString_sameDay.
Qed.

Lemma toISODateString_identifies_day_witness :
  toISODateString (mkDate 2024 2 1 0) = toISODateString (mkDate 2024 2 1 86399999)
  /\ toISODateString (mkDate 2024 2 1 0) <> toISODateString (mkDate 2024 1 1 0).
Proof.
  assert (Ha : validDay (mkDate 2024 2 1 0)) by (unfold validDay; cbn; lia).
  assert (Hb : validDay (mkDate 2024 2 1 86399999))
    by (unfold validDay; cbn; lia).
  assert (Hc : validDay (mkDate 2024 1 1 0)) by (unfold validDay; cbn; lia).
  split.
  - apply (toISODateString_identifies_day _ _ Ha Hb).
    unfold sameDay; cbn; lia.
  - intros E. apply (toISODateString_identifies_day _ _ Ha Hc) in E.
    unfold sameDay in E; cbn in E; lia.
Defined.

Lemma toString_four_digits (y : Z) :
  1000 <= y <= 9999 -> length (Js.toString y) = 4%nat.
Proof.
  intros Hy.
  assert (Hb : 0 <= y < Z.of_nat (Z.to_nat 10000))
    by (rewrite Z2Nat.id by lia; lia).
  pose proof (below_checked
                (fun v => (v <? 1000) || (length (Js.toString v) =? 4)%nat)
                (Z.to_nat 10000) ltac:(vm_compute; reflexivity) y Hb) as H.
  cbv beta in H. apply orb_true_iff in H. destruct H as [H|H].
  - apply Z.ltb_lt in H. lia.
  - apply Nat.eqb_eq, H.
Qed.

(** X2.  For a year from 1000 to 9999 and month and day in range, the
    string has the shape YYYY-MM-DD: four code units for the year, a
    dash, two for the month (one-based), a dash, two for the day, ten in
    all, and the two-character fields read back as the month number and
    the day. *)
Theorem toISODateString_shape (d : Date) :
  validDay d -> 1000 <= getFullYear d <= 9999 ->
  exists yyyy mm dd,
    toISODateString d = yyyy ++ Js.str "-" ++ mm ++ Js.str "-" ++ dd /\
    yyyy = Js.toString (getFullYear d) /\
    length yyyy = 4%nat /\ length mm = 2%nat /\ length dd = 2%nat /\
    decode2 mm = getMonth d + 1 /\ decode2 dd = getDate d /\
    length (toISODateString d) = 10%nat.
Proof.
  intros [Hm Hd] Hy.
  destruct (twoDigits_decode (getMonth d + 1)) as [Lm Em]; [lia|].
  destruct (twoDigits_decode (getDate d)) as [Ld Ed]; [lia|].
  pose proof (toString_four_digits _ Hy) as Ly.
  exists (Js.toString (getFullYear d)), (twoDigits (getMonth d + 1)),
    (twoDigits (getDate d)).
  repeat split; auto.
  unfold toISODateString.
  fold (twoDigits (getMonth d + 1)) (twoDigits (getDate d)).
  rewrite !length_app, Ly, Lm, Ld. reflexivity.
Qed.

Lemma toISODateString_shape_witness :
  length (toISODateString (march 1)) = 10%nat.
Proof.
  assert (Hv : validDay (march 1)) by (unfold validDay; cbn; lia).
  assert (Hy : 1000 <= getFullYear (march 1) <= 9999) by (cbn; lia).
  destruct (toISODateString_shape (march 1) Hv Hy)
    as (yyyy & mm & dd & _ & _ & _ & _ & _ & _ & _ & H).
  exact H.
Defined.

(** ** The foreground check *)

(** X3.  What the visibility listener does on valid dates: a hidden
    event changes nothing; a visible event changes nothing when the
    selected day is today, and otherwise replaces the selected date by
    today and touches no other part of the state, the store included. *)
Theorem visibility_change_effect (visible : bool) (today : Date)
        (st : AppState) :
  validDay today -> validDay (currentDate st) ->
  let st' := handleVisibilityChange visible today st in
  (visible = false -> st' = st) /\
  (visible = true -> sameDay today (currentDate st) -> st' = st) /\
  (visible = true -> ~ sameDay today (currentDate st) ->
   st' = setCurrentDate today st) /\
  notes st' = notes st.
Proof.
  intros Ht Hc st'.
  destruct (handleVisibilityChange_days today st Ht Hc) as (H1 & H2 & _).
  assert (Hdec : sameDay today (currentDate st)
                 \/ ~ sameDay today (currentDate st))
    by (unfold sameDay; lia).
  unfold st'. destruct visible.
  - repeat split; try discriminate; auto.
    destruct Hdec as [H|H]; [rewrite (H1 H) | rewrite (H2 H)]; reflexivity.
  - repeat split; try discriminate; auto.
Qed.

Lemma visibility_change_effect_witness :
  handleVisibilityChange true (march 2) startOfMarch
  = setCurrentDate (march 2) startOfMarch.
Proof.
  assert (Ht : validDay (march 2)) by (unfold validDay; cbn; lia).
  assert (Hc : validDay (currentDate startOfMarch))
    by (unfold validDay; cbn; lia).
  destruct (visibility_change_effect true (march 2) startOfMarch Ht Hc)
    as (_ & _ & H & _).
  apply H; [reflexivity|]. unfold sameDay. cbn. lia.
Defined.

(** ** Flows through the editor and the action drawer *)

Lemma unique_id_In (l : list Note) (n m : Note) :
  uniqueIds l -> In n l -> In m l -> id n = id m -> n = m.
Proof.
  intros Hu Hn Hm Hid.
  apply In_nth_error in Hn. apply In_nth_error in Hm.
  destruct Hn as [i Hi], Hm as [j Hj].
  assert (i = j) by (eapply nth_error_unique_id; eauto).
  subst. congruence.
Qed.

Lemma withContent_same (n : Note) : withContent n (content n) = n.
Proof. destruct n; reflexivity. Qed.

(** X5.  Opening a stored note in the editor and saving without typing
    leaves the store exactly as it was, provided ids are pairwise
    distinct: long press, Edit, Save prefills the buffer with the note's
    own content and writes it back.  The editor ends closed and the
    drawer closed. *)
Theorem edit_without_typing_keeps_store
        (st : AppState) (t : Note) (now1 now2 : Z) (random : Q) :
  In t (notes st) -> uniqueIds (notes st) ->
  id t <> [] -> Js.trim (content t) <> [] ->
  let st' := run [LongPress t; ClickEdit; ClickSave now1 now2 random] st in
  notes st' = notes st /\ editorClosed st' /\ isDrawerOpen st' = false.
Proof.
  intros Hin Hu Hid Hc st'.
  set (st2 := run [LongPress t; ClickEdit] st).
  assert (E2 : st2 = setIsModalOpen true
                       (setIsDrawerOpen false
                          (setEditingNoteId (Some (id t))
                             (setNewNoteColor (color t)
                                (setNewNoteContent (content t)
                                   (handleLongPressNote t st))))))
    by reflexivity.
  assert (E : st' = handleSaveNote now1 now2 random st2) by reflexivity.
  rewrite E, (handleSaveNote_edit _ _ _ st2 (id t));
    [| rewrite E2; reflexivity | exact Hid | rewrite E2; exact Hc].
  assert (Hsame : editedNotes (id t) st2 = notes st).
  { unfold editedNotes. rewrite E2. cbn [notes newNoteContent setIsModalOpen
      setIsDrawerOpen setEditingNoteId setNewNoteColor setNewNoteContent
      handleLongPressNote setActionNote].
    rewrite <- (map_id (notes st)) at 2. apply map_ext_in.
    intros n Hn. destruct (Js.eqb (id n) (id t)) eqn:Heq; [|reflexivity].
    apply eqb_eq in Heq.
    rewrite (unique_id_In _ _ _ Hu Hn Hin Heq). apply withContent_same. }
  rewrite Hsame, E2. repeat split.
Qed.

Lemma edit_without_typing_keeps_store_witness :
  notes (run [LongPress noteA; ClickEdit; ClickSave 9 9 0] wallWithOneNote)
  = notes wallWithOneNote.
Proof.
  assert (Hin : In noteA (notes wallWithOneNote))
    by (left; vm_compute; reflexivity).
  assert (Hu : uniqueIds (notes wallWithOneNote)).
  { unfold uniqueIds.
    replace (map id (notes wallWithOneNote)) with [Js.str "5"]
      by (vm_compute; reflexivity).
    repeat constructor. intros []. }
  assert (Hid : id noteA <> []) by (vm_compute; discriminate).
  assert (Hc : Js.trim (content noteA) <> []) by (vm_compute; discriminate).
  exact (proj1 (edit_without_typing_keeps_store
                  wallWithOneNote noteA 9 9 0 Hin Hu Hid Hc)).
Defined.

(** X6.  The whole delete flow, from any state: after long press on
    [t], Delete and Discard, no stored note carries the id of [t], every
    note with another id is kept in its place, the drawer and the
    confirmation are closed and the target is cleared. *)
Theorem delete_flow_removes_target (st : AppState) (t : Note) :
  let st' := run [LongPress t; ClickDelete; ClickDiscard] st in
  notes st' = filter (fun n => negb (Js.eqb (id n) (id t))) (notes st) /\
  (forall n, In n (notes st') -> id n <> id t) /\
  (forall n, In n (notes st) -> id n <> id t -> In n (notes st')) /\
  actionIdle st' /\ actionNote st' = None.
Proof.
  intros st'.
  assert (E : notes st'
              = filter (fun n => negb (Js.eqb (id n) (id t))) (notes st))
    by reflexivity.
  split; [exact E|]. rewrite E. repeat split.
  - intros n Hn. apply filter_In in Hn. destruct Hn as [_ Hn].
    apply negb_true_iff, eqb_neq in Hn. exact Hn.
  - intros n Hn Hid. apply filter_In. split; [exact Hn|].
    apply negb_true_iff, eqb_neq, Hid.
Qed.

(** ** Creating notes *)

Lemma handleSaveNote_create now1 now2 random st :
  (editingNoteId st = None \/ editingNoteId st = Some []) ->
  Js.trim (newNoteContent st) <> [] ->
  notes (handleSaveNote now1 now2 random st)
  = createdNote now1 now2 random st :: notes st.
Proof.
  intros He Hbuf. rewrite handleSaveNote_accepted by exact Hbuf.
  unfold savedNotes. destruct He as [-> | ->]; reflexivity.
Qed.

(** X7.  A note created while the clock is not behind the notes of the
    selected day goes to the front of that day's list: the list after
    the save is the new note followed by the list before, and the new
    note carries the buffer as typed, the selected day's string, the
    chosen color and the two clock readings. *)
Theorem new_note_is_first_of_its_day
        (st : AppState) (now1 now2 : Z) (random : Q) :
  (editingNoteId st = None \/ editingNoteId st = Some []) ->
  Js.trim (newNoteContent st) <> [] ->
  (forall n, In n (notes st) ->
             date n = toISODateString (currentDate st) ->
             timestamp n <= now2) ->
  let st' := handleSaveNote now1 now2 random st in
  currentNotes st' = createdNote now1 now2 random st :: currentNotes st /\
  currentDate st' = currentDate st /\ editorClosed st'.
Proof.
  intros He Hbuf Hclock st'.
  assert (Est : st' = setIsModalOpen false
                        (setEditingNoteId None
                           (setNewNoteContent []
                              (setNotes (savedNotes now1 now2 random st) st))))
    by (apply handleSaveNote_accepted, Hbuf).
  assert (En : notes st' = createdNote now1 now2 random st :: notes st)
    by (apply handleSaveNote_create; assumption).
  assert (Ed : currentDate st' = currentDate st) by (rewrite Est; reflexivity).
  split; [|split; [exact Ed | rewrite Est; repeat split]].
  unfold currentNotes. rewrite En, Ed. unfold getNotesForDate.
  cbn [filter]. unfold createdNote at 1. cbn [date].
  rewrite eqb_refl. cbn [Js.sort fold_right].
  fold (Js.sort (fun a b : Note => timestamp b - timestamp a)
                (filter (fun n => Js.eqb (date n)
                                         (toISODateString (currentDate st)))
                        (notes st))).
  fold (getNotesForDate (notes st) (currentDate st)).
  destruct (getNotesForDate (notes st) (currentDate st)) as [|y l] eqn:El;
    [reflexivity|].
  cbn [Js.insert].
  destruct (getNotesForDate_head _ _ _ _ El) as (Hy & Hd & _).
  specialize (Hclock y Hy Hd).
  destruct (Z.leb_spec (timestamp y - timestamp (createdNote now1 now2 random st)) 0)
    as [_|Hgt]; [reflexivity|].
  cbn [timestamp createdNote] in Hgt. lia.
Qed.

Lemma new_note_is_first_of_its_day_witness :
  let st := run [ClickNewNote 0; TypeContent (Js.str "b")] wallWithOneNote in
  map content (currentNotes (handleSaveNote 7 7 0 st))
  = [Js.str "b"; Js.str "a"].
Proof.
  intros st.
  assert (He : editingNoteId st = None \/ editingNoteId st = Some [])
    by (left; vm_compute; reflexivity).
  assert (Hbuf : Js.trim (newNoteContent st) <> [])
    by (vm_compute; discriminate).
  assert (Hclock : forall n, In n (notes st) ->
                             date n = toISODateString (currentDate st) ->
                             timestamp n <= 7).
  { replace (notes st) with [noteA] by (vm_compute; reflexivity).
    intros n [<-|[]] _. cbn. lia. }
  destruct (new_note_is_first_of_its_day st 7 7 0 He Hbuf Hclock) as [H _].
  rewrite H. vm_compute. reflexivity.
Defined.

(** ** What no operation changes *)

(** X8.  Across any single event, every note of the new store is either
    the note a save has just created, or a note of the old store with
    the same id, date, timestamp, color and rotation, which is either
    untouched or has received the editor buffer as content.  No handler
    ever rewrites an id, a date, a timestamp, a color or a rotation. *)
Theorem step_keeps_note_identity (ev : Event) (st : AppState) (n' : Note) :
  In n' (notes (step ev st)) ->
  (exists n, In n (notes st) /\ skeleton n' = skeleton n /\
             (n' = n \/ content n' = newNoteContent st)) \/
  (exists now1 now2 random,
      ev = ClickSave now1 now2 random /\
      n' = createdNote now1 now2 random st).
Proof.
  intros Hin.
  destruct (notes_step ev st)
    as [E | [(now1 & now2 & random & Hev & _ & E) | (t & _ & _ & E)]];
    rewrite E in Hin.
  - left. exists n'. auto.
  - assert (Hcreate : In n' (createdNote now1 now2 random st :: notes st) ->
                      (exists n, In n (notes st) /\ skeleton n' = skeleton n /\
                                 (n' = n \/ content n' = newNoteContent st)) \/
                      (exists now1 now2 random,
                          ev = ClickSave now1 now2 random /\
                          n' = createdNote now1 now2 random st)).
    { intros [<-|H]; [right; eauto | left; exists n'; auto]. }
    unfold savedNotes in Hin.
    destruct (editingNoteId st) as [e|]; [destruct (Js.truthy e)|]; auto.
    left. unfold editedNotes in Hin. apply in_map_iff in Hin.
    destruct Hin as (n & <- & Hn). exists n.
    destruct (Js.eqb (id n) e); auto.
  - left. apply filter_In in Hin. exists n'. tauto.
Qed.

Lemma step_keeps_note_identity_witness :
  let st := run [LongPress noteA; ClickEdit; TypeContent (Js.str "b")]
                wallWithOneNote in
  let n' := withContent noteA (Js.str "b") in
  (exists n, In n (notes st) /\ skeleton n' = skeleton n /\
             (n' = n \/ content n' = newNoteContent st)) \/
  (exists now1 now2 random,
      ClickSave 9 9 0 = ClickSave now1 now2 random /\
      n' = createdNote now1 now2 random st).
Proof.
  intros st n'.
  apply (step_keeps_note_identity (ClickSave 9 9 0) st n').
  left. vm_compute. reflexivity.
Defined.

(** ** Font size *)

(** X9.  The editor and the rendered note pick the font size class by
    the same rule: for every text, the class shown while typing is the
    class of the saved note, and it depends on the number of code units
    only, with steps at 30, 80 and 150. *)
Theorem editor_font_matches_note (note : Note) :
  getNoteInputFontSizeClass (content note) = StickyNote.fontSizeClass note /\
  (forall other : JsString,
      length other = length (content note) ->
      getNoteInputFontSizeClass other = StickyNote.fontSizeClass note) /\
  (StickyNote.fontSizeClass note = Js.str "text-xl"
   <-> (length (content note) < 30)%nat) /\
  (StickyNote.fontSizeClass note = Js.str "text-sm"
   <-> (150 <= length (content note))%nat).
Proof.
  unfold StickyNote.fontSizeClass, StickyNote.getFontSizeClass,
    getNoteInputFontSizeClass.
  split; [reflexivity|]. split; [intros other ->; reflexivity|].
  destruct (Z.ltb_spec (Z.of_nat (length (content note))) 30);
    [|destruct (Z.ltb_spec (Z.of_nat (length (content note))) 80);
      [|destruct (Z.ltb_spec (Z.of_nat (length (content note))) 150)]];
    (split; split; intros H'; try lia; try reflexivity;
     try (exfalso; revert H'; vm_compute; discriminate)).
Qed.

(** ** Order of the store *)

Lemma descendingStore_editedNotes (e : JsString) (st : AppState) :
  descendingStore (notes st) -> descendingStore (editedNotes e st).
Proof.
  unfold descendingStore, editedNotes.
  induction 1 as [|a l Hl IH Ha]; cbn [map]; constructor; [exact IH|].
  rewrite Forall_forall in *. intros n' Hn'. apply in_map_iff in Hn'.
  destruct Hn' as (n & <- & Hn). specialize (Ha n Hn).
  destruct (Js.eqb (id a) e), (Js.eqb (id n) e); cbn; exact Ha.
Qed.

Lemma descendingStore_filter (f : Note -> bool) (l : list Note) :
  descendingStore l -> descendingStore (filter f l).
Proof.
  unfold descendingStore.
  induction 1 as [|a l Hl IH Ha]; cbn [filter]; [constructor|].
  destruct (f a); [|exact IH]. constructor; [exact IH|].
  rewrite Forall_forall in *. intros n Hn. apply filter_In in Hn.
  apply Ha, Hn.
Qed.

Lemma descendingStore_step (ev : Event) (st : AppState) :
  (forall now1 now2 random,
      ev = ClickSave now1 now2 random ->
      forall n, In n (notes st) -> timestamp n <= now2) ->
  descendingStore (notes st) -> descendingStore (notes (step ev st)).
Proof.
  intros Hclock Hinv.
  destruct (notes_step ev st)
    as [E | [(now1 & now2 & random & Hev & _ & E) | (t & _ & _ & E)]];
    rewrite E.
  - exact Hinv.
  - assert (Hnew : descendingStore
                     (createdNote now1 now2 random st :: notes st)).
    { constructor; [exact Hinv|]. rewrite Forall_forall.
      intros n Hn. cbn. exact (Hclock _ _ _ Hev n Hn). }
    unfold savedNotes.
    destruct (editingNoteId st) as [e|]; [destruct (Js.truthy e)|]; auto.
    apply descendingStore_editedNotes, Hinv.
  - apply descendingStore_filter, Hinv.
Qed.

(** X10.  While no save reads a timestamp behind a stored one, the store
    stays ordered from the latest timestamp to the earliest, whatever
    the events, and the list of the selected day is then the store
    filtered by date, in store order: the sort moves nothing. *)
Theorem store_stays_newest_first (evs : list Event) (st : AppState) :
  descendingStore (notes st) -> clockNeverBehind evs st ->
  let st' := run evs st in
  descendingStore (notes st') /\
  currentNotes st'
  = filter (fun n => Js.eqb (date n) (toISODateString (currentDate st')))
           (notes st').
Proof.
  intros Hinv Hclock st'.
  assert (Hs : descendingStore (notes st')).
  { unfold st'. clear st'. revert st Hinv Hclock.
    induction evs as [|ev evs IH]; intros st Hinv Hclock; [exact Hinv|].
    cbn [clockNeverBehind] in Hclock. destruct Hclock as [Hev Hrest].
    cbn [run fold_left]. apply IH; [|exact Hrest].
    apply descendingStore_step; [|exact Hinv].
    intros now1 now2 random ->. exact Hev. }
  split; [exact Hs|].
  apply getNotesForDate_of_sorted_store, Hs.
Qed.

Lemma store_stays_newest_first_witness :
  let evs := [ClickNewNote 0; TypeContent (Js.str "a"); ClickSave 5 5 0;
              ClickNewNote 0; TypeContent (Js.str "b"); ClickSave 8 9 0] in
  map timestamp (notes (run evs startOfMarch)) = [9; 5] /\
  descendingStore (notes (run evs startOfMarch)).
Proof.
  intros evs.
  assert (Hinit : descendingStore (notes startOfMarch)) by constructor.
  assert (Hclock : clockNeverBehind evs startOfMarch).
  { cbn [clockNeverBehind evs]. repeat split.
    - intros n Hn. vm_compute in Hn. contradiction.
    - intros n Hn.
      replace (notes _) with [noteA] in Hn by (vm_compute; reflexivity).
      destruct Hn as [<-|[]]. cbn. lia. }
  split; [vm_compute; reflexivity|].
  exact (proj1 (store_stays_newest_first evs startOfMarch Hinit Hclock)).
Defined.

(** ** Identifiers under a fresh clock *)

(** X11.  Ids stay pairwise distinct along any trace in which every save
    reads a clock value whose decimal string is not already the id of a
    stored note; editing and deleting never endanger it. *)
Theorem ids_stay_unique_with_fresh_clock (evs : list Event) (st : AppState) :
  uniqueIds (notes st) -> clockAlwaysFresh evs st ->
  uniqueIds (notes (run evs st)).
Proof.
  revert st. induction evs as [|ev evs IH]; intros st Hinv Hfresh;
    [exact Hinv|].
  cbn [clockAlwaysFresh] in Hfresh. destruct Hfresh as [Hev Hrest].
  cbn [run fold_left]. apply IH; [|exact Hrest].
  apply uniqueIds_step; [|exact Hinv].
  intros now1 now2 random ->. exact Hev.
Qed.

Lemma ids_stay_unique_with_fresh_clock_witness :
  let evs := [ClickNewNote 0; TypeContent (Js.str "a"); ClickSave 5 5 0;
              ClickNewNote 0; TypeContent (Js.str "b"); ClickSave 6 6 0] in
  map id (notes (run evs startOfMarch)) = [Js.str "6"; Js.str "5"] /\
  uniqueIds (notes (run evs startOfMarch)).
Proof.
  intros evs.
  assert (Hinit : uniqueIds (notes startOfMarch)) by constructor.
  assert (Hfresh : clockAlwaysFresh evs startOfMarch).
  { cbn [clockAlwaysFresh evs]. repeat split.
    - intros n Hn. vm_compute in Hn. contradiction.
    - intros n Hn.
      replace (notes _) with [noteA] in Hn by (vm_compute; reflexivity).
      destruct Hn as [<-|[]]. vm_compute. discriminate. }
  split; [vm_compute; reflexivity|].
  exact (ids_stay_unique_with_fresh_clock evs startOfMarch Hinit Hfresh).
Defined.

(** ** The calendar *)

(** *** The calendar arithmetic of the runtime *)

Ltac zdiv := Z.div_mod_to_equations; lia.

Lemma DaysInYear_cases (y : Z) :
  JsDate.DaysInYear y = 365 \/ JsDate.DaysInYear y = 366.
Proof.
  unfold JsDate.DaysInYear.
  destruct (negb _); [auto|]. destruct (negb _); [auto|].
  destruct (negb _); auto.
Qed.

Lemma DayFromYear_succ (y : Z) :
  JsDate.DayFromYear (y + 1) = JsDate.DayFromYear y + JsDate.DaysInYear y.
Proof.
  unfold JsDate.DayFromYear, JsDate.DaysInYear.
  destruct (Z.eqb_spec (y mod 4) 0), (Z.eqb_spec (y mod 100) 0),
    (Z.eqb_spec (y mod 400) 0); cbn [negb]; zdiv.
Qed.

Lemma DayFromYear_lt (y y' : Z) :
  y < y' -> JsDate.DayFromYear y < JsDate.DayFromYear y'.
Proof. unfold JsDate.DayFromYear. zdiv. Qed.

Lemma YearFromDay_spec (day : Z) :
  JsDate.DayFromYear (JsDate.YearFromDay day) <= day
  < JsDate.DayFromYear (JsDate.YearFromDay day + 1).
Proof.
  unfold JsDate.YearFromDay.
  set (e := 1970 + 400 * day / 146097).
  destruct (Z.leb_spec (JsDate.DayFromYear (e + 1)) day);
    [| destruct (Z.leb_spec (JsDate.DayFromYear e) day)].
  - split; [lia|]. unfold JsDate.DayFromYear in *. subst e. zdiv.
  - lia.
  - split; [|replace (e - 1 + 1) with e by lia; lia].
    unfold JsDate.DayFromYear in *. subst e. zdiv.
Qed.

Lemma YearFromDay_unique (day y : Z) :
  JsDate.DayFromYear y <= day < JsDate.DayFromYear (y + 1) ->
  JsDate.YearFromDay day = y.
Proof.
  intros Hy. pose proof (YearFromDay_spec day) as HY.
  destruct (Z.lt_trichotomy (JsDate.YearFromDay day) y) as [Hlt|[Heq|Hgt]];
    [|exact Heq|].
  - assert (JsDate.DayFromYear (JsDate.YearFromDay day + 1)
            <= JsDate.DayFromYear y).
    { destruct (Z.eq_dec (JsDate.YearFromDay day + 1) y) as [->|Hne];
        [lia|]. apply Z.lt_le_incl, DayFromYear_lt. lia. }
    lia.
  - assert (JsDate.DayFromYear (y + 1)
            <= JsDate.DayFromYear (JsDate.YearFromDay day)).
    { destruct (Z.eq_dec (y + 1) (JsDate.YearFromDay day)) as [->|Hne];
        [lia|]. apply Z.lt_le_incl, DayFromYear_lt. lia. }
    lia.
Qed.


Lemma leapOf_cases (y : Z) :
  (leapOf y = 0 /\ JsDate.DaysInYear y = 365) \/
  (leapOf y = 1 /\ JsDate.DaysInYear y = 366).
Proof.
  unfold leapOf. destruct (DaysInYear_cases y) as [-> | ->]; cbn; auto.
Qed.

Lemma month_cases (m : Z) :
  0 <= m <= 11 ->
  m = 0 \/ m = 1 \/ m = 2 \/ m = 3 \/ m = 4 \/ m = 5 \/ m = 6 \/ m = 7 \/
  m = 8 \/ m = 9 \/ m = 10 \/ m = 11.
Proof. lia. Qed.


(** The day-within-year decomposition of a day number. *)
Lemma fields_of_day_in_year (y m d : Z) :
  0 <= m <= 11 -> 1 <= d <= civilMonthLength y m ->
  let day := JsDate.DayFromYear y + JsDate.monthStart m (leapOf y) + d - 1 in
  JsDate.YearFromDay day = y /\ JsDate.MonthFromDay day = m /\
  JsDate.DateFromDay day = d.
Proof.
  intros Hm Hd day.
  assert (Hy : JsDate.YearFromDay day = y).
  { apply YearFromDay_unique. rewrite DayFromYear_succ. unfold day.
    unfold civilMonthLength in Hd. fold (leapOf y) in Hd.
    destruct (leapOf_cases y) as [[HL HD]|[HL HD]]; rewrite HL, HD in *;
      destruct (month_cases m Hm)
        as [->|[->|[->|[->|[->|[->|[->|[->|[->|[->|[->| ->]]]]]]]]]]];
      cbn in Hd |- *; lia. }
  assert (HL : JsDate.InLeapYear day = leapOf y)
    by (unfold JsDate.InLeapYear, leapOf; rewrite Hy; reflexivity).
  assert (Hw : JsDate.DayWithinYear day
               = JsDate.monthStart m (leapOf y) + d - 1)
    by (unfold JsDate.DayWithinYear; rewrite Hy; unfold day; lia).
  assert (HM : JsDate.MonthFromDay day = m).
  { unfold JsDate.MonthFromDay. rewrite Hw, HL.
    unfold civilMonthLength in Hd. fold (leapOf y) in Hd.
    destruct (leapOf_cases y) as [[HL' HD]|[HL' HD]]; rewrite HL', ?HD in *;
      destruct (month_cases m Hm)
        as [->|[->|[->|[->|[->|[->|[->|[->|[->|[->|[->| ->]]]]]]]]]]];
      cbn in Hd; cbn [JsDate.monthStart];
      repeat match goal with
             | |- context [?a <? ?b] => destruct (Z.ltb_spec a b); try lia
             end; reflexivity. }
  repeat split; auto.
  unfold JsDate.DateFromDay. rewrite Hw, HL, HM. lia.
Qed.

Lemma MakeDay_in_year (y m d : Z) :
  0 <= m <= 11 ->
  JsDate.MakeDay y m d
  = JsDate.DayFromYear y + JsDate.monthStart m (leapOf y) + d - 1.
Proof.
  intros Hm. unfold JsDate.MakeDay, leapOf.
  replace (m / 12) with 0 by zdiv. replace (m mod 12) with m by zdiv.
  rewrite Z.add_0_r. reflexivity.
Qed.

(** A civil date given to [MakeDay] is read back by the getters. *)
Lemma ofDay_MakeDay (y m d : Z) :
  0 <= m <= 11 -> 1 <= d <= civilMonthLength y m ->
  JsDate.ofDay (JsDate.MakeDay y m d) = mkDate y m d 0.
Proof.
  intros Hm Hd. rewrite MakeDay_in_year by exact Hm.
  destruct (fields_of_day_in_year y m d Hm Hd) as (Hy & HM & HD).
  unfold JsDate.ofDay. rewrite Hy, HM, HD. reflexivity.
Qed.

Lemma MonthFromDay_range (day : Z) : 0 <= JsDate.MonthFromDay day <= 11.
Proof.
  unfold JsDate.MonthFromDay.
  repeat match goal with
         | |- context [?a <? ?b] => destruct (a <? b); try lia
         end.
Qed.

(** The getters of a day number give that day number back. *)
Lemma dayOf_fields (day t : Z) :
  JsDate.dayOf (mkDate (JsDate.YearFromDay day) (JsDate.MonthFromDay day)
                       (JsDate.DateFromDay day) t) = day.
Proof.
  unfold JsDate.dayOf.
  cbn [getFullYear getMonth getDate].
  rewrite MakeDay_in_year by apply MonthFromDay_range.
  unfold JsDate.DateFromDay, JsDate.DayWithinYear, JsDate.InLeapYear, leapOf.
  lia.
Qed.

Lemma dayOf_ofDay (day : Z) : JsDate.dayOf (JsDate.ofDay day) = day.
Proof. unfold JsDate.ofDay. apply dayOf_fields. Qed.

(** Month overflow: month 12 of a year is month 0 of the next, month -1
    is month 11 of the year before. *)
Lemma MakeDay_next_month (y m d : Z) :
  0 <= m <= 11 ->
  JsDate.MakeDay y (m + 1) d = JsDate.MakeDay y m d + civilMonthLength y m.
Proof.
  intros Hm. rewrite (MakeDay_in_year y m) by exact Hm.
  destruct (Z.eq_dec m 11) as [->|Hne].
  - unfold JsDate.MakeDay. change (11 + 1) with 12.
    change (12 / 12) with 1. change (12 mod 12) with 0.
    rewrite DayFromYear_succ. cbn [JsDate.monthStart civilMonthLength].
    destruct (leapOf_cases y) as [[HL HD]|[HL HD]]; rewrite HL, HD; lia.
  - rewrite MakeDay_in_year by lia.
    unfold civilMonthLength. fold (leapOf y).
    destruct (leapOf_cases y) as [[HL HD]|[HL HD]]; rewrite HL, ?HD;
      destruct (month_cases m Hm)
        as [->|[->|[->|[->|[->|[->|[->|[->|[->|[->|[->| ->]]]]]]]]]]];
      cbn; lia.
Qed.

Lemma civilMonthLength_range (y m : Z) : 28 <= civilMonthLength y m <= 31.
Proof.
  unfold civilMonthLength.
  destruct m as [|p|p]; try lia.
  destruct (JsDate.DaysInYear y =? 366);
  repeat (destruct p as [p|p|]; try lia).
Qed.

Lemma newDate_plain (gap : Z -> Z) (y m d : Z) :
  plainYear y -> noSkippedDay gap ->
  JsDate.newDate gap y m d
  = mkDate (JsDate.YearFromDay (JsDate.MakeDay y m d))
           (JsDate.MonthFromDay (JsDate.MakeDay y m d))
           (JsDate.DateFromDay (JsDate.MakeDay y m d))
           (gap (JsDate.MakeDay y m d)).
Proof.
  unfold plainYear, JsDate.newDate. intros Hy Hgap.
  destruct (Z.leb_spec y 99); [lia|]. rewrite andb_false_r.
  cbv zeta. unfold JsDate.ofLocalTime. cbv zeta.
  specialize (Hgap (JsDate.MakeDay y m d)). unfold JsDate.msPerDay in *.
  replace ((JsDate.MakeDay y m d * 86400000 + gap (JsDate.MakeDay y m d))
           / 86400000) with (JsDate.MakeDay y m d) by zdiv.
  replace ((JsDate.MakeDay y m d * 86400000 + gap (JsDate.MakeDay y m d))
           mod 86400000) with (gap (JsDate.MakeDay y m d)) by zdiv.
  reflexivity.
Qed.

(** With no skipped day, a civil date given to the constructor is the
    date the getters show. *)
Lemma newDate_civil (gap : Z -> Z) (y m d : Z) :
  plainYear y -> noSkippedDay gap ->
  0 <= m <= 11 -> 1 <= d <= civilMonthLength y m ->
  JsDate.newDate gap y m d = mkDate y m d (gap (JsDate.MakeDay y m d)).
Proof.
  intros Hy Hgap Hm Hd. rewrite newDate_plain by assumption.
  pose proof (ofDay_MakeDay y m d Hm Hd) as H. unfold JsDate.ofDay in H.
  injection H as -> -> ->. reflexivity.
Qed.

Lemma dayOf_newDate (gap : Z -> Z) (y m d : Z) :
  plainYear y -> noSkippedDay gap ->
  JsDate.dayOf (JsDate.newDate gap y m d) = JsDate.MakeDay y m d.
Proof.
  intros Hy Hgap. rewrite newDate_plain by assumption.
  apply dayOf_fields.
Qed.

Lemma MakeDay_shift (y m d : Z) :
  JsDate.MakeDay y m d = JsDate.MakeDay y m 1 + d - 1.
Proof. unfold JsDate.MakeDay. lia. Qed.

Lemma MakeDay_carry (y m d : Z) :
  JsDate.MakeDay y m d = JsDate.MakeDay (y + m / 12) (m mod 12) d.
Proof.
  unfold JsDate.MakeDay.
  replace (m mod 12 / 12) with 0 by zdiv.
  replace ((m mod 12) mod 12) with (m mod 12) by zdiv.
  rewrite Z.add_0_r. reflexivity.
Qed.

Lemma getDay_newDate (gap : Z -> Z) (y m d : Z) :
  plainYear y -> noSkippedDay gap ->
  JsDate.getDay (JsDate.newDate gap y m d)
  = JsDate.WeekDay (JsDate.MakeDay y m d).
Proof.
  intros Hy Hgap. unfold JsDate.getDay.
  rewrite dayOf_newDate by assumption. reflexivity.
Qed.

Lemma getDaysInMonth_plain (gap : Z -> Z) (y m : Z) :
  plainYear y -> noSkippedDay gap -> 0 <= m <= 11 ->
  CalendarView.getDaysInMonth gap y m = civilMonthLength y m.
Proof.
  intros Hy Hgap Hm. unfold CalendarView.getDaysInMonth.
  assert (E : JsDate.MakeDay y (m + 1) 0
              = JsDate.MakeDay y m (civilMonthLength y m)).
  { rewrite MakeDay_next_month by exact Hm.
    rewrite (MakeDay_shift y m 0), (MakeDay_shift y m (civilMonthLength y m)).
    lia. }
  rewrite newDate_plain by assumption. cbn [getDate]. rewrite E.
  pose proof (civilMonthLength_range y m) as Hr.
  pose proof (ofDay_MakeDay y m (civilMonthLength y m) Hm ltac:(lia)) as H'.
  unfold JsDate.ofDay in H'. injection H' as _ _ H'. exact H'.
Qed.

(** The model follows the runtime where a day was skipped: with 30
    December 2011 missing, as in Pacific/Apia, the constructor asked for
    that day gives the 31st; with 31 December 1994 missing, as in
    Pacific/Kiritimati, December 1994 is counted as one day long. *)
Example skipped_days :
  getDate (JsDate.newDate (skippingDay (JsDate.MakeDay 2011 11 30)) 2011 11 30)
  = 31 /\
  CalendarView.getDaysInMonth (skippingDay (JsDate.MakeDay 1994 11 31)) 1994 11
  = 1 /\
  CalendarView.getDaysInMonth everyMidnight 1994 11 = 31.
Proof. vm_compute. repeat split. Qed.

Lemma everyMidnight_noSkippedDay : noSkippedDay everyMidnight.
Proof. intros day. unfold everyMidnight, JsDate.msPerDay. lia. Qed.

(** X12.  In a time zone that never skipped a whole calendar day, for a
    month of a year from 100 to 275000, [getDaysInMonth] (the day before
    the first of the following month) is the length of that month in the
    civil calendar: 31, 30, or for February 29 in a leap year (divisible
    by 4 and not by 100, or divisible by 400) and 28 otherwise; December
    is handled through the carry into the next year. *)
Theorem getDaysInMonth_is_month_length (gap : Z -> Z) (year month : Z) :
  noSkippedDay gap -> plainYear year -> 0 <= month <= 11 ->
  let n := CalendarView.getDaysInMonth gap year month in
  (In month [0; 2; 4; 6; 7; 9; 11] -> n = 31) /\
  (In month [3; 5; 8; 10] -> n = 30) /\
  (month = 1 ->
   (year mod 4 = 0 /\ (year mod 100 <> 0 \/ year mod 400 = 0) -> n = 29) /\
   (~ (year mod 4 = 0 /\ (year mod 100 <> 0 \/ year mod 400 = 0)) -> n = 28)).
Proof.
  intros Hgap Hy Hm n. unfold n. rewrite getDaysInMonth_plain by assumption.
  unfold civilMonthLength. repeat split.
  - cbn [In]. intros H. repeat (destruct H as [<-|H]; [reflexivity|]).
    contradiction.
  - cbn [In]. intros H. repeat (destruct H as [<-|H]; [reflexivity|]).
    contradiction.
  - subst month. unfold JsDate.DaysInYear. intros (H4 & H100).
    rewrite H4. cbn [Z.eqb negb].
    destruct (Z.eqb_spec (year mod 100) 0); cbn [negb]; [|reflexivity].
    destruct (Z.eqb_spec (year mod 400) 0); cbn [negb]; [reflexivity|].
    tauto.
  - subst month. unfold JsDate.DaysInYear. intros Hn.
    destruct (Z.eqb_spec (year mod 4) 0); cbn [negb]; [|reflexivity].
    destruct (Z.eqb_spec (year mod 100) 0); cbn [negb]; [|tauto].
    destruct (Z.eqb_spec (year mod 400) 0); cbn [negb]; [tauto|reflexivity].
Qed.

Lemma getDaysInMonth_is_month_length_witness :
  CalendarView.getDaysInMonth everyMidnight 2024 1 = 29 /\
  CalendarView.getDaysInMonth everyMidnight 1900 1 = 28 /\
  CalendarView.getDaysInMonth everyMidnight 2023 11 = 31.
Proof.
  pose proof everyMidnight_noSkippedDay as Hg.
  assert (H24 : plainYear 2024) by (unfold plainYear; lia).
  assert (H19 : plainYear 1900) by (unfold plainYear; lia).
  assert (H23 : plainYear 2023) by (unfold plainYear; lia).
  split; [|split].
  - apply (getDaysInMonth_is_month_length everyMidnight 2024 1 Hg H24
                                          ltac:(lia));
      [reflexivity|]. split; [reflexivity | left; discriminate].
  - apply (getDaysInMonth_is_month_length everyMidnight 1900 1 Hg H19
                                          ltac:(lia));
      [reflexivity|]. intros [_ [H|H]]; [apply H; reflexivity | discriminate].
  - apply (getDaysInMonth_is_month_length everyMidnight 2023 11 Hg H23
                                          ltac:(lia)).
    cbn. tauto.
Defined.

(** *** Counting loops *)

Lemma countFrom_length (lo hi : Z) :
  length (CalendarView.countFrom lo hi) = Z.to_nat (hi - lo).
Proof. unfold CalendarView.countFrom. rewrite length_map, length_seq. reflexivity. Qed.

Lemma countFrom_nth (lo hi : Z) (k : nat) :
  Z.of_nat k < hi - lo ->
  nth_error (CalendarView.countFrom lo hi) k = Some (lo + Z.of_nat k).
Proof.
  intros Hk. unfold CalendarView.countFrom.
  rewrite nth_error_map.
  rewrite (nth_error_nth' _ 0%nat) by (rewrite length_seq; lia).
  rewrite seq_nth by lia. reflexivity.
Qed.

Lemma countFrom_In (lo hi x : Z) :
  In x (CalendarView.countFrom lo hi) <-> lo <= x < hi.
Proof.
  unfold CalendarView.countFrom. rewrite in_map_iff. split.
  - intros (k & <- & Hk). apply in_seq in Hk. lia.
  - intros Hx. exists (Z.to_nat (x - lo)). split; [lia|]. apply in_seq. lia.
Qed.

Lemma getFirstDayOfMonth_plain (gap : Z -> Z) (y m : Z) :
  plainYear y -> noSkippedDay gap ->
  CalendarView.getFirstDayOfMonth gap y m
  = JsDate.WeekDay (JsDate.MakeDay y m 1).
Proof. intros Hy Hgap. apply getDay_newDate; assumption. Qed.

(** X13.  In a time zone that never skipped a whole calendar day, the
    month grid of a year from 100 to 275000: at most six blank slots
    come first, as many as the week day of the first of the month (0 for
    Sunday); then one button per day of the month, in order, so the grid
    has at most 37 cells; and the button of each day falls in the column
    of the week day of the date its click selects. *)
Theorem calendar_grid_layout
        (gap : Z -> Z) (viewDate currentDate today : Date)
        (notes : list Note) :
  noSkippedDay gap ->
  plainYear (getFullYear viewDate) -> 0 <= getMonth viewDate <= 11 ->
  let year := getFullYear viewDate in
  let month := getMonth viewDate in
  let startDay := CalendarView.getFirstDayOfMonth gap year month in
  let daysInMonth := CalendarView.getDaysInMonth gap year month in
  let g := CalendarView.grid gap viewDate currentDate today notes in
  0 <= startDay <= 6 /\
  length g = Z.to_nat (startDay + daysInMonth) /\
  (length g <= 37)%nat /\
  (forall i, 0 <= i < startDay ->
             nth_error g (Z.to_nat i) = Some (CalendarView.Blank i)) /\
  (forall day, 1 <= day <= daysInMonth ->
     nth_error g (Z.to_nat (startDay + day - 1))
     = Some (CalendarView.dayButton gap viewDate currentDate today notes day)
     /\
     (startDay + day - 1) mod 7
     = JsDate.getDay (JsDate.newDate gap year month day)).
Proof.
  intros Hgap Hy Hm year month startDay daysInMonth g.
  assert (Hs : 0 <= startDay <= 6).
  { unfold startDay. rewrite getFirstDayOfMonth_plain by assumption.
    unfold JsDate.WeekDay. zdiv. }
  assert (Hd : 28 <= daysInMonth <= 31).
  { unfold daysInMonth. rewrite getDaysInMonth_plain by assumption.
    apply civilMonthLength_range. }
  assert (Hlen : length g = Z.to_nat (startDay + daysInMonth)).
  { unfold g, CalendarView.grid. fold year month startDay daysInMonth.
    rewrite length_app, !length_map, !countFrom_length. lia. }
  split; [exact Hs|]. split; [exact Hlen|]. split; [lia|]. split.
  - intros i Hi. unfold g, CalendarView.grid.
    fold year month startDay daysInMonth.
    rewrite nth_error_app1 by (rewrite length_map, countFrom_length; lia).
    rewrite nth_error_map, countFrom_nth by lia.
    cbn [option_map]. do 2 f_equal. lia.
  - intros day Hday. split.
    + unfold g, CalendarView.grid. fold year month startDay daysInMonth.
      rewrite nth_error_app2 by (rewrite length_map, countFrom_length; lia).
      rewrite length_map, countFrom_length.
      rewrite nth_error_map, countFrom_nth by lia.
      cbn [option_map]. do 2 f_equal. lia.
    + rewrite getDay_newDate by assumption.
      unfold startDay. rewrite getFirstDayOfMonth_plain by assumption.
      rewrite (MakeDay_shift year month day). unfold JsDate.WeekDay. zdiv.
Qed.

Lemma calendar_grid_layout_witness :
  let g := CalendarView.grid everyMidnight (march 1) (march 1) (march 2)
                             mixedStore in
  CalendarView.getFirstDayOfMonth everyMidnight 2024 2 = 5 /\
  length g = 36%nat /\
  nth_error g 4 = Some (CalendarView.Blank 4) /\
  (5 + 31 - 1) mod 7 = JsDate.getDay (JsDate.newDate everyMidnight 2024 2 31).
Proof.
  intros g.
  assert (Hy : plainYear (getFullYear (march 1)))
    by (unfold plainYear; cbn; lia).
  assert (Hm : 0 <= getMonth (march 1) <= 11) by (cbn; lia).
  destruct (calendar_grid_layout everyMidnight (march 1) (march 1) (march 2)
                                 mixedStore everyMidnight_noSkippedDay Hy Hm)
    as (_ & Hlen & _ & Hblank & Hday).
  split; [vm_compute; reflexivity|]. split; [|split].
  - unfold g. rewrite Hlen. vm_compute. reflexivity.
  - apply (Hblank 4). vm_compute. split; [discriminate | reflexivity].
  - apply (Hday 31). vm_compute. split; discriminate.
Defined.

Lemma newDate_first_of_month (gap : Z -> Z) (y m : Z) :
  plainYear y -> noSkippedDay gap -> 0 <= m <= 11 ->
  firstOfMonth (JsDate.newDate gap y m 1) y m.
Proof.
  intros Hy Hgap Hm. pose proof (civilMonthLength_range y m).
  rewrite newDate_civil by (assumption || lia). repeat split.
Qed.

Lemma nextMonth_plain (gap : Z -> Z) (v : Date) :
  plainYear (getFullYear v) -> plainYear (getFullYear v + 1) ->
  noSkippedDay gap -> 0 <= getMonth v <= 11 ->
  firstOfMonth (CalendarView.nextMonth gap v)
               (if getMonth v =? 11 then getFullYear v + 1 else getFullYear v)
               (if getMonth v =? 11 then 0 else getMonth v + 1).
Proof.
  intros Hy Hy1 Hgap Hm. unfold CalendarView.nextMonth.
  destruct (Z.eqb_spec (getMonth v) 11) as [E|E].
  - rewrite newDate_plain by assumption. rewrite E.
    rewrite MakeDay_carry. change ((11 + 1) / 12) with 1.
    change ((11 + 1) mod 12) with 0.
    pose proof (civilMonthLength_range (getFullYear v + 1) 0).
    pose proof (ofDay_MakeDay (getFullYear v + 1) 0 1 ltac:(lia) ltac:(lia))
      as H'. unfold JsDate.ofDay in H'. injection H' as -> -> ->.
    repeat split.
  - apply newDate_first_of_month; [assumption | assumption | lia].
Qed.

Lemma prevMonth_plain (gap : Z -> Z) (v : Date) :
  plainYear (getFullYear v) -> plainYear (getFullYear v - 1) ->
  noSkippedDay gap -> 0 <= getMonth v <= 11 ->
  firstOfMonth (CalendarView.prevMonth gap v)
               (if getMonth v =? 0 then getFullYear v - 1 else getFullYear v)
               (if getMonth v =? 0 then 11 else getMonth v - 1).
Proof.
  intros Hy Hy1 Hgap Hm. unfold CalendarView.prevMonth.
  destruct (Z.eqb_spec (getMonth v) 0) as [E|E].
  - rewrite newDate_plain by assumption. rewrite E.
    rewrite MakeDay_carry. change ((0 - 1) / 12) with (-1).
    change ((0 - 1) mod 12) with 11.
    replace (getFullYear v + -1) with (getFullYear v - 1) by lia.
    pose proof (civilMonthLength_range (getFullYear v - 1) 11).
    pose proof (ofDay_MakeDay (getFullYear v - 1) 11 1 ltac:(lia) ltac:(lia))
      as H'. unfold JsDate.ofDay in H'. injection H' as -> -> ->.
    repeat split.
  - apply newDate_first_of_month; [assumption | assumption | lia].
Qed.

(** X14.  Month navigation in a time zone that never skipped a whole
    calendar day, for years from 101 to 274999: the next button shows
    the first of the following month, January of the next year after
    December; the previous button shows the first of the preceding
    month, December of the year before after January; each undoes the
    other on the month shown; and the first week day of the following
    month continues the week where this month ends. *)
Theorem month_navigation (gap : Z -> Z) (viewDate : Date) :
  noSkippedDay gap ->
  plainYear (getFullYear viewDate - 1) ->
  plainYear (getFullYear viewDate + 1) ->
  0 <= getMonth viewDate <= 11 ->
  let year := getFullYear viewDate in
  let month := getMonth viewDate in
  let next := CalendarView.nextMonth gap viewDate in
  let prev := CalendarView.prevMonth gap viewDate in
  firstOfMonth next (if month =? 11 then year + 1 else year)
               (if month =? 11 then 0 else month + 1) /\
  firstOfMonth prev (if month =? 0 then year - 1 else year)
               (if month =? 0 then 11 else month - 1) /\
  firstOfMonth (CalendarView.prevMonth gap next) year month /\
  firstOfMonth (CalendarView.nextMonth gap prev) year month /\
  CalendarView.getFirstDayOfMonth gap (getFullYear next) (getMonth next)
  = (CalendarView.getFirstDayOfMonth gap year month
     + CalendarView.getDaysInMonth gap year month) mod 7.
Proof.
  intros Hgap Hp Hn Hm year month next prev.
  assert (Hy : plainYear year)
    by (unfold plainYear in *; fold year in Hp, Hn; lia).
  pose proof (nextMonth_plain gap viewDate Hy Hn Hgap Hm) as En.
  pose proof (prevMonth_plain gap viewDate Hy Hp Hgap Hm) as Ep.
  fold year month next in En. fold year month prev in Ep.
  split; [exact En|]. split; [exact Ep|].
  destruct En as (Eny & Enm & End). destruct Ep as (Epy & Epm & Epd).
  split; [|split].
  - destruct (Z.eqb_spec month 11) as [E|E].
    + assert (H := prevMonth_plain gap next).
      rewrite Eny, Enm in H. cbn [Z.eqb] in H.
      replace (year + 1 - 1) with year in H by lia. rewrite E.
      apply H; [exact Hn | exact Hy | exact Hgap | lia].
    + assert (H := prevMonth_plain gap next).
      rewrite Eny, Enm in H.
      destruct (Z.eqb_spec (month + 1) 0); [lia|].
      replace (month + 1 - 1) with month in H by lia.
      apply H; [exact Hy | exact Hp | exact Hgap | lia].
  - destruct (Z.eqb_spec month 0) as [E|E].
    + assert (H := nextMonth_plain gap prev).
      rewrite Epy, Epm in H. cbn [Z.eqb] in H.
      replace (year - 1 + 1) with year in H by lia. rewrite E.
      apply H; [exact Hp | exact Hy | exact Hgap | lia].
    + assert (H := nextMonth_plain gap prev).
      rewrite Epy, Epm in H.
      destruct (Z.eqb_spec (month - 1) 11); [lia|].
      replace (month - 1 + 1) with month in H by lia.
      apply H; [exact Hy | exact Hn | exact Hgap | lia].
  - rewrite (getFirstDayOfMonth_plain gap year month) by assumption.
    rewrite getDaysInMonth_plain by assumption.
    assert (Hnext : JsDate.MakeDay (getFullYear next) (getMonth next) 1
                    = JsDate.MakeDay year month 1 + civilMonthLength year month).
    { rewrite <- MakeDay_next_month by exact Hm. rewrite Eny, Enm.
      destruct (Z.eqb_spec month 11) as [E|E].
      - rewrite E, (MakeDay_carry year (11 + 1) 1). reflexivity.
      - reflexivity. }
    rewrite getFirstDayOfMonth_plain.
    + rewrite Hnext. unfold JsDate.WeekDay. zdiv.
    + rewrite Eny. destruct (month =? 11); assumption.
    + exact Hgap.
Qed.

Lemma month_navigation_witness :
  firstOfMonth (CalendarView.nextMonth everyMidnight (mkDate 2024 11 25 0))
               2025 0 /\
  firstOfMonth (CalendarView.prevMonth everyMidnight (mkDate 2024 0 15 0))
               2023 11 /\
  firstOfMonth
    (CalendarView.prevMonth everyMidnight
       (CalendarView.nextMonth everyMidnight (mkDate 2024 11 25 0)))
    2024 11.
Proof.
  pose proof everyMidnight_noSkippedDay as Hg.
  assert (P : forall y, 101 <= y <= 274999 ->
                        plainYear (y - 1) /\ plainYear (y + 1))
    by (unfold plainYear; lia).
  destruct (P 2024 ltac:(lia)) as [Hp Hn].
  destruct (month_navigation everyMidnight (mkDate 2024 11 25 0) Hg Hp Hn
                             ltac:(cbn; lia))
    as (H1 & _ & H3 & _).
  destruct (month_navigation everyMidnight (mkDate 2024 0 15 0) Hg Hp Hn
                             ltac:(cbn; lia))
    as (_ & H2 & _).
  split; [exact H1|]. split; [exact H2 | exact H3].
Defined.

(** *** From the calendar to the daily view *)

Lemma getNotesForDay_eq (viewDate : Date) (notes : list Note) (day : Z) :
  CalendarView.getNotesForDay viewDate notes day
  = filter (fun n => Js.eqb (date n)
                       (toISODateString
                          (mkDate (getFullYear viewDate) (getMonth viewDate)
                                  day 0)))
           notes.
Proof. reflexivity. Qed.

(** X15.  In a time zone that never skipped a whole calendar day,
    clicking the button of a day of the grid (year from 100 to 275000)
    hands [onDateChange] a date with the shown year and month and that
    day; the application then shows the daily stack view with that date
    selected, and the notes listed there are, up to their order, exactly
    the notes the calendar counted for that day.  The dots of the button
    are the colors of the first three of them in store order, and the
    overflow dot appears exactly when there are more than three. *)
Theorem calendar_day_opens_its_notes
        (gap : Z -> Z) (viewDate today : Date) (st : AppState) (day : Z) :
  noSkippedDay gap ->
  plainYear (getFullYear viewDate) -> 0 <= getMonth viewDate <= 11 ->
  1 <= day <= CalendarView.getDaysInMonth gap (getFullYear viewDate)
                                         (getMonth viewDate) ->
  let dayNotes := CalendarView.getNotesForDay viewDate (notes st) day in
  let clicked :=
    JsDate.newDate gap (getFullYear viewDate) (getMonth viewDate) day in
  let st' := step (SelectDay clicked) st in
  CalendarView.dayButton gap viewDate (currentDate st) today (notes st) day
  = CalendarView.DayButton
      day (map color (firstn 3 dayNotes)) (3 <? length dayNotes)%nat
      (CalendarView.isSelected viewDate (currentDate st) day)
      (CalendarView.isToday viewDate today day
       && negb (CalendarView.isSelected viewDate (currentDate st) day))
      clicked /\
  getFullYear clicked = getFullYear viewDate /\
  getMonth clicked = getMonth viewDate /\ getDate clicked = day /\
  view st' = daily /\ isGridMode st' = false /\ currentDate st' = clicked /\
  notes st' = notes st /\
  Permutation dayNotes (currentNotes st') /\
  length (currentNotes st') = length dayNotes.
Proof.
  intros Hgap Hy Hm Hday dayNotes clicked st'.
  rewrite getDaysInMonth_plain in Hday by assumption.
  assert (Eclick : clicked
                   = mkDate (getFullYear viewDate) (getMonth viewDate) day
                            (gap (JsDate.MakeDay (getFullYear viewDate)
                                                 (getMonth viewDate) day)))
    by (apply newDate_civil; assumption).
  assert (Estr : toISODateString clicked
                 = toISODateString (mkDate (getFullYear viewDate)
                                           (getMonth viewDate) day 0))
    by (rewrite Eclick; reflexivity).
  assert (Hperm : Permutation dayNotes (currentNotes st')).
  { unfold dayNotes. rewrite getNotesForDay_eq, <- Estr.
    apply getNotesForDate_perm. }
  split.
  - unfold CalendarView.dayButton. fold dayNotes clicked.
    destruct dayNotes as [|n l]; reflexivity.
  - rewrite Eclick at 1 2 3. cbn [getFullYear getMonth getDate].
    repeat split; auto. symmetry. apply Permutation_length, Hperm.
Qed.

Lemma calendar_day_opens_its_notes_witness :
  let st := setNotes mixedStore startOfMarch in
  let clicked := JsDate.newDate everyMidnight 2024 2 1 in
  map id (currentNotes (step (SelectDay clicked) st))
  = [Js.str "2"; Js.str "4"; Js.str "1"] /\
  Permutation (CalendarView.getNotesForDay (march 9) (notes st) 1)
              (currentNotes (step (SelectDay clicked) st)).
Proof.
  intros st clicked. split; [vm_compute; reflexivity|].
  assert (Hy : plainYear (getFullYear (march 9)))
    by (unfold plainYear; cbn; lia).
  assert (Hday : 1 <= 1 <= CalendarView.getDaysInMonth
                             everyMidnight
                             (getFullYear (march 9)) (getMonth (march 9)))
    by (vm_compute; split; discriminate).
  destruct (calendar_day_opens_its_notes
              everyMidnight (march 9) (march 2) st 1
              everyMidnight_noSkippedDay Hy ltac:(cbn; lia) Hday)
    as (_ & _ & _ & _ & _ & _ & _ & _ & H & _).
  exact H.
Defined.

Lemma filter_countFrom_eqb (lo hi x : Z) :
  lo <= x < hi ->
  filter (fun day => day =? x) (CalendarView.countFrom lo hi) = [x].
Proof.
  unfold CalendarView.countFrom. intros Hx.
  assert (Hgen : forall n,
             filter (fun day => day =? x)
                    (map (fun k => lo + Z.of_nat k) (seq 0 n))
             = if x <? lo + Z.of_nat n then [x] else []).
  { induction n as [|n IH].
    - cbn. destruct (Z.ltb_spec x (lo + 0)); [lia | reflexivity].
    - rewrite seq_S, map_app, filter_app, IH. cbn [map filter Nat.add].
      destruct (Z.eqb_spec (lo + Z.of_nat n) x) as [E|E];
        destruct (Z.ltb_spec x (lo + Z.of_nat n)),
          (Z.ltb_spec x (lo + Z.of_nat (S n)));
        try lia; try reflexivity.
      cbn [app]. rewrite E. reflexivity. }
  rewrite Hgen. destruct (Z.ltb_spec x (lo + Z.of_nat (Z.to_nat (hi - lo))));
    [reflexivity | lia].
Qed.

(** X16.  In a time zone that never skipped a whole calendar day, when
    the calendar opens on a selected date that is a day of the civil
    calendar (year from 100 to 275000), exactly one cell of the grid is
    highlighted as selected: the button of that day. *)
Theorem calendar_opens_with_one_selected_day
        (gap : Z -> Z) (currentDate today : Date) (notes : list Note) :
  noSkippedDay gap ->
  plainYear (getFullYear currentDate) -> civilDate currentDate ->
  let g := CalendarView.grid gap (CalendarView.initialViewDate currentDate)
                             currentDate today notes in
  map cellDay (filter cellSelected g) = [Some (getDate currentDate)].
Proof.
  intros Hgap Hy [Hm Hd] g.
  unfold g, CalendarView.grid, CalendarView.initialViewDate.
  rewrite getDaysInMonth_plain by assumption.
  rewrite filter_app.
  assert (Hblank : forall l, filter cellSelected (map CalendarView.Blank l) = []).
  { induction l as [|x l IH]; [reflexivity | exact IH]. }
  rewrite Hblank. cbn [app].
  set (D := getDate currentDate) in *.
  set (len := civilMonthLength (getFullYear currentDate) (getMonth currentDate)) in *.
  assert (Hsel : forall day,
             cellSelected (CalendarView.dayButton gap currentDate currentDate
                                                  today notes day)
             = (day =? D)).
  { intros day. unfold CalendarView.dayButton, CalendarView.isSelected.
    cbn [cellSelected]. fold D. rewrite !Z.eqb_refl, !andb_true_r.
    reflexivity. }
  assert (Hswap : forall l,
             filter cellSelected
                    (map (CalendarView.dayButton gap currentDate currentDate
                                                 today notes) l)
             = map (CalendarView.dayButton gap currentDate currentDate
                                           today notes)
                   (filter (fun day => day =? D) l)).
  { induction l as [|x l IH]; [reflexivity|].
    cbn [map filter]. rewrite Hsel, IH. destruct (x =? D); reflexivity. }
  rewrite Hswap, (filter_countFrom_eqb 1 (len + 1) D) by lia.
  reflexivity.
Qed.

Lemma calendar_opens_with_one_selected_day_witness :
  map cellDay
      (filter cellSelected
              (CalendarView.grid everyMidnight
                                 (CalendarView.initialViewDate (march 5))
                                 (march 5) (march 2) mixedStore))
  = [Some 5].
Proof.
  assert (Hy : plainYear (getFullYear (march 5)))
    by (unfold plainYear; cbn; lia).
  assert (Hc : civilDate (march 5)) by (unfold civilDate; cbn; lia).
  exact (calendar_opens_with_one_selected_day
           everyMidnight (march 5) (march 2) mixedStore
           everyMidnight_noSkippedDay Hy Hc).
Defined.

(** ** Long press *)

Lemma LongPress_render_active (notes : list Note) (st : LongPress.State) :
  notes <> [] -> 0 <= LongPress.currentIndex st ->
  exists a next bg,
    LongPress.render notes st = Some (DailyStack.Cards a next bg) /\
    nth_error notes
      (Z.to_nat (LongPress.currentIndex st mod Z.of_nat (length notes)))
    = Some a.
Proof.
  intros Hne Hc.
  destruct (get_modulo notes (LongPress.currentIndex st) Hne Hc)
    as (a & Ha & Ha').
  destruct (get_modulo notes (LongPress.currentIndex st + 1) Hne ltac:(lia))
    as (n & Hn & _).
  assert (Hlen : (length notes =? 0)%nat = false)
    by (destruct notes; [contradiction | reflexivity]).
  unfold LongPress.render, DailyStack.render, DailyStack.activeNote,
    DailyStack.activeIndex, DailyStack.nextNote, DailyStack.nextIndex.
  cbn [DailyStack.currentIndex]. rewrite Hlen, Ha, Hn.
  destruct (1 <? length notes)%nat; eauto.
Qed.

Lemma clearTimeout_head (i : positive) (a : Note) (l : list (positive * Note)) :
  (forall t, In t l -> (fst t < i)%positive) ->
  LongPress.clearTimeout i ((i, a) :: l) = l.
Proof.
  intros H. unfold LongPress.clearTimeout. cbn [filter fst].
  rewrite Pos.eqb_refl. cbn [negb].
  induction l as [|t l IH]; [reflexivity|]. cbn [filter].
  assert (Ht : (fst t =? i)%positive = false).
  { apply Pos.eqb_neq. specialize (H t (or_introl eq_refl)). lia. }
  rewrite Ht. cbn [negb]. f_equal. apply IH.
  intros u Hu. apply H. right. exact Hu.
Qed.

(** X17.  A single press on the stack, starting with no pending timer:
    the pointer-down arms one timer that captures the active note
    (index cursor mod count); if it elapses, [onLongPress] is called
    with that note, once; if the pointer is released, leaves the card or
    starts dragging first, no timer is left pending, so no long press
    can follow. *)
Theorem single_press_long_press (notes : list Note) (st : LongPress.State) :
  notes <> [] -> 0 <= LongPress.currentIndex st ->
  LongPress.timers st = [] ->
  let pressed := LongPress.dispatch notes DailyStack.PointerDown st in
  let i := LongPress.nextTimer st in
  exists a,
    nth_error notes
      (Z.to_nat (LongPress.currentIndex st mod Z.of_nat (length notes)))
    = Some a /\
    LongPress.timers pressed = [(i, a)] /\
    snd (LongPress.elapse i pressed) = Some a /\
    LongPress.timers (fst (LongPress.elapse i pressed)) = [] /\
    (forall j, snd (LongPress.elapse j (fst (LongPress.elapse i pressed)))
               = None) /\
    (forall g, cancels g ->
       LongPress.timers (LongPress.dispatch notes g pressed) = [] /\
       forall j, snd (LongPress.elapse j (LongPress.dispatch notes g pressed))
                 = None).
Proof.
  intros Hne Hc Ht pressed i.
  destruct (LongPress_render_active notes st Hne Hc) as (a & nx & bg & Hr & Ha).
  exists a. split; [exact Ha|].
  assert (Ep : pressed = LongPress.handlePointerDown a st)
    by (unfold pressed, LongPress.dispatch; rewrite Hr; reflexivity).
  assert (Etim : LongPress.timers pressed = [(i, a)])
    by (rewrite Ep; cbn; rewrite Ht; reflexivity).
  split; [exact Etim|].
  assert (Eel : LongPress.elapse i pressed
                = ({| LongPress.currentIndex := LongPress.currentIndex pressed;
                      LongPress.direction := LongPress.direction pressed;
                      LongPress.timers := [];
                      LongPress.longPressTimerRef :=
                        LongPress.longPressTimerRef pressed;
                      LongPress.nextTimer := LongPress.nextTimer pressed |},
                   Some a)).
  { unfold LongPress.elapse, LongPress.clearTimeout. rewrite Etim.
    cbn [find filter fst]. rewrite Pos.eqb_refl. reflexivity. }
  rewrite Eel. cbn [fst snd LongPress.timers].
  split; [reflexivity|]. split; [reflexivity|]. split.
  - intros j. unfold LongPress.elapse. reflexivity.
  - intros g Hg.
    assert (Er : LongPress.render notes pressed
                 = Some (DailyStack.Cards a nx bg))
      by (rewrite Ep; exact Hr).
    assert (Ec : LongPress.dispatch notes g pressed
                 = LongPress.cancelLongPress pressed)
      by (unfold LongPress.dispatch; rewrite Er;
          destruct Hg as [-> | [-> | ->]]; reflexivity).
    assert (Et : LongPress.timers (LongPress.cancelLongPress pressed) = []).
    { rewrite Ep. unfold LongPress.cancelLongPress, LongPress.clearTimeout.
      cbn. rewrite Ht, Pos.eqb_refl. reflexivity. }
    rewrite Ec. split; [exact Et|].
    intros j. unfold LongPress.elapse. rewrite Et. reflexivity.
Qed.

Lemma single_press_long_press_witness :
  snd (LongPress.elapse 1 (LongPress.dispatch [noteA] DailyStack.PointerDown
                                               LongPress.initial))
  = Some noteA.
Proof.
  destruct (single_press_long_press [noteA] LongPress.initial
                                    ltac:(discriminate) ltac:(cbn; lia) eq_refl)
    as (a & Ha & _ & H & _).
  injection Ha as <-. exact H.
Defined.

Lemma LongPress_render_cursor (notes : list Note) (s1 s2 : LongPress.State) :
  LongPress.currentIndex s1 = LongPress.currentIndex s2 ->
  LongPress.render notes s1 = LongPress.render notes s2.
Proof.
  intros H. unfold LongPress.render, DailyStack.render, DailyStack.activeNote,
    DailyStack.activeIndex, DailyStack.nextNote, DailyStack.nextIndex.
  cbn [DailyStack.currentIndex]. rewrite H. reflexivity.
Qed.

Lemma after_presses (notes : list Note) (a : Note)
      (nx : option Note) (bg : bool) (k : nat) :
  forall (st : LongPress.State) (m : nat),
    LongPress.render notes st = Some (DailyStack.Cards a nx bg) ->
    (forall t, In t (LongPress.timers st) ->
               (fst t < LongPress.nextTimer st)%positive) ->
    map snd (LongPress.timers st) = repeat a m ->
    let st' := LongPress.gestures notes (repeat DailyStack.PointerDown k) st in
    LongPress.render notes st' = Some (DailyStack.Cards a nx bg) /\
    (forall t, In t (LongPress.timers st') ->
               (fst t < LongPress.nextTimer st')%positive) /\
    map snd (LongPress.timers st') = repeat a (k + m).
Proof.
  induction k as [|k IH]; intros st m Hr Hb Hs; [cbn; auto|].
  cbn [repeat LongPress.gestures fold_left].
  assert (Ed : LongPress.dispatch notes DailyStack.PointerDown st
               = LongPress.handlePointerDown a st)
    by (unfold LongPress.dispatch; rewrite Hr; reflexivity).
  rewrite Ed.
  replace (S k + m)%nat with (k + S m)%nat by lia.
  apply IH.
  - rewrite <- Hr. apply LongPress_render_cursor. reflexivity.
  - cbn. intros t [<-|Ht]; [cbn; lia|]. specialize (Hb t Ht). lia.
  - cbn. rewrite Hs. reflexivity.
Qed.

(** X18.  Pointer-downs that follow one another without a cancel in
    between (several fingers) each arm a timer, but the ref only keeps
    the last id: after [k + 1] such pointer-downs, one release, leave or
    drag start clears only the last timer.  The [k] earlier timers stay
    pending, no further cancel can clear them, and each of them calls
    [onLongPress] with the active note when it elapses. *)
Theorem earlier_presses_cannot_be_cancelled
        (notes : list Note) (st : LongPress.State) (k : nat)
        (g : DailyStack.Gesture) :
  notes <> [] -> 0 <= LongPress.currentIndex st ->
  LongPress.timers st = [] -> cancels g ->
  let st' :=
    LongPress.dispatch notes g
      (LongPress.gestures notes (repeat DailyStack.PointerDown (S k)) st) in
  exists a,
    nth_error notes
      (Z.to_nat (LongPress.currentIndex st mod Z.of_nat (length notes)))
    = Some a /\
    map snd (LongPress.timers st') = repeat a k /\
    LongPress.longPressTimerRef st' = None /\
    (forall g', cancels g' -> LongPress.dispatch notes g' st' = st') /\
    (forall t, In t (LongPress.timers st') ->
               snd (LongPress.elapse (fst t) st') = Some a).
Proof.
  intros Hne Hc Ht Hg st'.
  destruct (LongPress_render_active notes st Hne Hc) as (a & nx & bg & Hr & Ha).
  exists a. split; [exact Ha|].
  assert (Hk : S k = (k + 1)%nat) by lia.
  set (sk := LongPress.gestures notes (repeat DailyStack.PointerDown k) st).
  destruct (after_presses notes a nx bg k st 0 Hr) as (Hrk & Hbk & Hsk);
    [rewrite Ht; intros t [] | rewrite Ht; reflexivity |].
  fold sk in Hrk, Hbk, Hsk. rewrite Nat.add_0_r in Hsk.
  assert (Elast : LongPress.gestures notes
                    (repeat DailyStack.PointerDown (S k)) st
                  = LongPress.handlePointerDown a sk).
  { rewrite Hk, repeat_app. unfold LongPress.gestures.
    rewrite fold_left_app. cbn [repeat fold_left].
    fold (LongPress.gestures notes (repeat DailyStack.PointerDown k) st).
    fold sk. unfold LongPress.dispatch. rewrite Hrk. reflexivity. }
  assert (Est : st' = LongPress.cancelLongPress
                        (LongPress.handlePointerDown a sk)).
  { unfold st'. rewrite Elast. unfold LongPress.dispatch.
    rewrite (LongPress_render_cursor notes _ sk) by reflexivity.
    rewrite Hrk. destruct Hg as [-> | [-> | ->]]; reflexivity. }
  assert (Etim : LongPress.timers st' = LongPress.timers sk).
  { rewrite Est. unfold LongPress.cancelLongPress. cbn.
    apply clearTimeout_head. exact Hbk. }
  assert (Eref : LongPress.longPressTimerRef st' = None)
    by (rewrite Est; reflexivity).
  split; [rewrite Etim; exact Hsk|]. split; [exact Eref|]. split.
  - intros g' Hg'. unfold LongPress.dispatch.
    destruct (LongPress.render notes st') as [[|a' n' b']|]; try reflexivity.
    destruct Hg' as [-> | [-> | ->]];
      unfold LongPress.cancelLongPress; rewrite Eref; reflexivity.
  - intros t Hin. unfold LongPress.elapse.
    rewrite Etim in Hin |- *.
    assert (Hall : forall u, In u (LongPress.timers sk) -> snd u = a).
    { intros u Hu. apply (in_map snd) in Hu. rewrite Hsk in Hu.
      apply repeat_spec in Hu. exact Hu. }
    destruct (find (fun u => (fst u =? fst t)%positive) (LongPress.timers sk))
      as [[j n]|] eqn:Ef.
    + apply find_some in Ef. cbn [snd]. f_equal.
      exact (Hall _ (proj1 Ef)).
    + exfalso. apply (find_none _ _ Ef) in Hin.
      rewrite Pos.eqb_refl in Hin. discriminate.
Qed.

Lemma earlier_presses_cannot_be_cancelled_witness :
  let st := LongPress.gestures [noteA]
              [DailyStack.PointerDown; DailyStack.PointerDown;
               DailyStack.PointerUp] LongPress.initial in
  map snd (LongPress.timers st) = [noteA] /\
  LongPress.longPressTimerRef st = None.
Proof.
  destruct (earlier_presses_cannot_be_cancelled
              [noteA] LongPress.initial 1 DailyStack.PointerUp
              ltac:(discriminate) ltac:(cbn; lia) eq_refl
              ltac:(left; reflexivity))
    as (a & Ha & Hs & Hr & _).
  injection Ha as <-. split; [exact Hs | exact Hr].
Defined.

(** ** Swiping round the stack *)

Lemma render_cards (notes : list Note) (st : DailyStack.State) :
  notes <> [] -> 0 <= DailyStack.currentIndex st ->
  exists a n,
    DailyStack.render notes st
    = Some (DailyStack.Cards a (Some n) (1 <? length notes)%nat) /\
    DailyStack.activeNote notes st = Some a /\
    nth_error notes
      (Z.to_nat (DailyStack.currentIndex st mod Z.of_nat (length notes)))
    = Some a.
Proof.
  intros Hne Hc.
  destruct (get_modulo notes (DailyStack.currentIndex st) Hne Hc)
    as (a & Ha & Ha').
  destruct (get_modulo notes (DailyStack.currentIndex st + 1) Hne ltac:(lia))
    as (n & Hn & _).
  assert (Hlen : (length notes =? 0)%nat = false)
    by (destruct notes; [contradiction | reflexivity]).
  exists a, n.
  unfold DailyStack.render, DailyStack.activeNote, DailyStack.activeIndex,
    DailyStack.nextNote, DailyStack.nextIndex.
  rewrite Hlen, Ha, Hn. destruct (1 <? length notes)%nat; auto.
Qed.

Lemma stack_cursor_step (notes : list Note) (st : DailyStack.State) (x : Q) :
  notes <> [] -> 0 <= DailyStack.currentIndex st ->
  (DailyStack.swipeThreshold < x \/ x < - DailyStack.swipeThreshold)%Q ->
  DailyStack.currentIndex (DailyStack.dispatch notes (DailyStack.DragEnd x) st)
  = DailyStack.currentIndex st + 1.
Proof.
  intros Hne Hc Hx.
  destruct (render_cards notes st Hne Hc) as (a & n & Hr & _).
  unfold DailyStack.dispatch. rewrite Hr. apply handleDragEnd_past, Hx.
Qed.

Lemma swipes_past_threshold (notes : list Note) (xs : list Q)
      (st : DailyStack.State) :
  notes <> [] -> 0 <= DailyStack.currentIndex st ->
  Forall (fun x => (DailyStack.swipeThreshold < x
                    \/ x < - DailyStack.swipeThreshold)%Q) xs ->
  DailyStack.currentIndex (DailyStack.swipes notes xs st)
  = DailyStack.currentIndex st + Z.of_nat (length xs).
Proof.
  intros Hne. revert st.
  induction xs as [|x xs IH]; intros st Hc Hall; [cbn; lia|].
  inversion Hall as [|? ? Hx Hrest]; subst.
  cbn [DailyStack.swipes fold_left length].
  fold (DailyStack.swipes notes xs
          (DailyStack.dispatch notes (DailyStack.DragEnd x) st)).
  pose proof (stack_cursor_step notes st x Hne Hc Hx) as Hstep.
  rewrite IH; [rewrite Hstep; lia | rewrite Hstep; lia | exact Hrest].
Qed.

(** X19.  Swiping goes round: with [count] notes on the day, [count]
    swipes past the threshold, in whatever directions, bring the same
    note back on top; before that, each swipe shows the note one place
    further down the list, wrapping at the end. *)
Theorem swiping_cycles_through_the_day
        (notes : list Note) (xs : list Q) (st : DailyStack.State) :
  notes <> [] -> 0 <= DailyStack.currentIndex st ->
  Forall (fun x => (DailyStack.swipeThreshold < x
                    \/ x < - DailyStack.swipeThreshold)%Q) xs ->
  let st' := DailyStack.swipes notes xs st in
  let count := Z.of_nat (length notes) in
  DailyStack.activeNote notes st'
  = nth_error notes
      (Z.to_nat ((DailyStack.currentIndex st + Z.of_nat (length xs))
                 mod count)) /\
  (length xs = length notes ->
   DailyStack.activeNote notes st' = DailyStack.activeNote notes st).
Proof.
  intros Hne Hc Hall st' count.
  pose proof (swipes_past_threshold notes xs st Hne Hc Hall) as Hcur.
  fold st' in Hcur.
  assert (Hc' : 0 <= DailyStack.currentIndex st') by lia.
  destruct (render_cards notes st' Hne Hc') as (a' & _ & _ & Ha' & Hn').
  destruct (render_cards notes st Hne Hc) as (a & _ & _ & Ha & Hn).
  rewrite Hcur in Hn'. fold count in Hn', Hn.
  split; [rewrite Ha', Hn'; reflexivity|].
  intros Hlen. rewrite Ha', Ha. rewrite <- Hn', <- Hn. do 2 f_equal.
  rewrite Hlen. fold count.
  rewrite <- (Z.mul_1_l count) at 1. apply Z.mod_add.
  unfold count. destruct notes; [contradiction | cbn; lia].
Qed.

Lemma swiping_cycles_through_the_day_witness :
  let b := mkNote (Js.str "9") (Js.str "b") (Js.str "2024-03-01") 9 pink 0 in
  DailyStack.activeNote [b; noteA]
    (DailyStack.swipes [b; noteA] [150 # 1; -150 # 1]%Q DailyStack.initial)
  = Some b.
Proof.
  intros b.
  assert (Hall : Forall (fun x => (DailyStack.swipeThreshold < x
                                   \/ x < - DailyStack.swipeThreshold)%Q)
                        [150 # 1; -150 # 1]%Q).
  { constructor; [left; vm_compute; reflexivity|].
    constructor; [right; vm_compute; reflexivity | constructor]. }
  destruct (swiping_cycles_through_the_day
              [b; noteA] [150 # 1; -150 # 1]%Q DailyStack.initial
              ltac:(discriminate) ltac:(cbn; lia) Hall) as [_ H].
  rewrite H by reflexivity. vm_compute. reflexivity.
Defined.

(** ** A new note after an abandoned edit *)

(** X20.  Whatever the editor held before, an edit that was opened
    and dismissed included, the new-note button starts a blank
    creation: typing non-blank text and saving adds one note in front
    of the store, with that text, the selected day and the color chosen
    at opening, and changes no stored note; the editor ends closed. *)
Theorem new_note_flow_always_creates
        (st : AppState) (r random : Q) (value : JsString) (now1 now2 : Z) :
  Js.trim value <> [] ->
  let opened := step (ClickNewNote r) st in
  let st' := run [ClickNewNote r; TypeContent value;
                  ClickSave now1 now2 random] st in
  newNoteContent opened = [] /\ editingNoteId opened = None /\
  isModalOpen opened = true /\
  offered opened (ClickSave now1 now2 random) = false /\
  (exists n,
      notes st' = n :: notes st /\
      id n = Js.toString now1 /\ content n = value /\
      date n = toISODateString (currentDate st) /\
      timestamp n = now2 /\ color n = newNoteColor opened) /\
  editorClosed st'.
Proof.
  intros Hv opened st'.
  assert (Eo : newNoteContent opened = [] /\ editingNoteId opened = None /\
               isModalOpen opened = true /\ notes opened = notes st /\
               currentDate opened = currentDate st).
  { unfold opened. cbn [step]. unfold openNewNoteModal.
    destruct (getRandomColor r _); repeat split. }
  destruct Eo as (Eb & Ee & Em & En & Ed).
  set (typed := setNewNoteContent value opened).
  assert (Est : st' = handleSaveNote now1 now2 random typed) by reflexivity.
  assert (Hacc : st' = setIsModalOpen false
                         (setEditingNoteId None
                            (setNewNoteContent []
                               (setNotes (savedNotes now1 now2 random typed)
                                         typed)))).
  { rewrite Est. apply handleSaveNote_accepted. exact Hv. }
  assert (Hnotes : notes st' = createdNote now1 now2 random typed :: notes st).
  { rewrite Est, handleSaveNote_create; [|left; exact Ee | exact Hv].
    cbn [typed notes setNewNoteContent]. rewrite En. reflexivity. }
  split; [exact Eb|]. split; [exact Ee|]. split; [exact Em|]. split.
  - cbn [offered]. rewrite Eb, Em. reflexivity.
  - split.
    + exists (createdNote now1 now2 random typed).
      split; [exact Hnotes|].
      unfold createdNote. cbn [id content date timestamp color].
      change (currentDate typed) with (currentDate opened). rewrite Ed.
      repeat split.
    + rewrite Hacc. repeat split.
Qed.

Lemma new_note_flow_always_creates_witness :
  let st := run [LongPress noteA; ClickEdit; TypeContent (Js.str "zz");
                 DismissModal] wallWithOneNote in
  editingNoteId st = Some (Js.str "5") /\
  map content (notes (run [ClickNewNote 0; TypeContent (Js.str "b");
                           ClickSave 7 7 0] st))
  = [Js.str "b"; Js.str "a"].
Proof.
  intros st. split; [vm_compute; reflexivity|].
  assert (Hv : Js.trim (Js.str "b") <> []) by (vm_compute; discriminate).
  destruct (new_note_flow_always_creates st 0 0 (Js.str "b") 7 7 Hv)
    as (_ & _ & _ & _ & (n & Hn & _ & Hc & _) & _).
  rewrite Hn. cbn [map]. rewrite Hc. vm_compute. reflexivity.
Defined.
